(** * tansy: parameter-driven slash commands, verified against the source

    A shallow embedding of [tansy/slash_commands.py] and
    [tansy/speedup/orjson_serialize.py].  Python objects that the code only
    passes around are kept opaque; dictionaries keep their insertion order;
    the function objects whose default storage the code rewrites live in a
    shared store addressed by object identity; raising is an explicit
    [Result]. *)

From Stdlib Require Import ZArith.
From stdpp Require Import base strings list functions.

Open Scope string_scope.
Open Scope list_scope.

(** ** Python values, exceptions and dictionaries *)

Module Py.

(** The values that flow through the modelled code.  [PyMissing] is the host
    framework's [MISSING] sentinel, [PyObj] an opaque object known by its
    identity. *)
Inductive Value : Type :=
| PyNone
| PyMissing
| PyBool (b : bool)
| PyInt (z : Z)
| PyStr (s : string)
| PyObj (id : nat).

#[global] Instance Value_eq_dec : EqDecision Value.
Proof. solve_decision. Defined.

(** Python truthiness, [bool(v)].  The host's [MISSING] sentinel is falsy. *)
Definition truthy (v : Value) : bool :=
  match v with
  | PyNone => false
  | PyMissing => false
  | PyBool b => b
  | PyInt z => negb (Z.eqb z 0)
  | PyStr s => negb (String.eqb s "")
  | PyObj _ => true
  end.

(** [x or y] on optional strings ([None] and the empty string are falsy). *)
Definition str_truthy (s : option string) : bool :=
  match s with
  | Some s => negb (String.eqb s "")
  | None => false
  end.

Definition str_or (a b : option string) : option string :=
  if str_truthy a then a else b.

(** The exceptions raised by the modelled code, each with its message. *)
Inductive Exception : Type :=
| ValueError (msg : string)
| TypeError (msg : string)
| ImportError (msg : string)
| LookupError (msg : string)
| KeyError (key : string)
| AttributeError (msg : string)
| Raised (payload : Value).

Definition Result (A : Type) : Type := (Exception + A)%type.

Definition Ok {A : Type} (a : A) : Result A := inr a.
Definition Raise {A : Type} (e : Exception) : Result A := inl e.

Definition bind {A B : Type} (m : Result A) (k : A → Result B) : Result B :=
  match m with
  | inl e => inl e
  | inr a => k a
  end.

Notation "'let*' x ':=' m 'in' k" := (bind m (fun x => k))
  (at level 10, x pattern, m at level 100, k at level 200).

(** A Python [dict] with string keys: the items in insertion order. *)
Abbreviation dict V := (list (string * V)).

Section Dict.
Context {V : Type}.

(** [d.get(k)] *)
Fixpoint dict_get (d : dict V) (k : string) : option V :=
  match d with
  | [] => None
  | (k', v) :: d' => if decide (k' = k) then Some v else dict_get d' k
  end.

(** [d[k] = v]: an existing key keeps its place, a new key goes last. *)
Fixpoint dict_set (d : dict V) (k : string) (v : V) : dict V :=
  match d with
  | [] => [(k, v)]
  | (k', v') :: d' =>
      if decide (k' = k) then (k', v) :: d' else (k', v') :: dict_set d' k v
  end.

Definition dict_keys (d : dict V) : list string := d.*1.
Definition dict_values (d : dict V) : list V := d.*2.

(** [bool(d)] *)
Definition dict_truthy (d : dict V) : bool :=
  match d with
  | [] => false
  | _ :: _ => true
  end.

(** [d or None] *)
Definition dict_or_None (d : dict V) : option (dict V) :=
  if dict_truthy d then Some d else None.

(** [{k: v for (k, v) in items}] *)
Definition dict_of_items (items : list (string * V)) : dict V :=
  foldl (fun acc kv => dict_set acc kv.1 kv.2) [] items.

End Dict.

End Py.
Import Py.

(** ** Converter normalisation: [_get_converter] *)

Module Converters.

(** [inspect._ParameterKind] *)
Inductive ParamKind : Type :=
| POSITIONAL_ONLY
| POSITIONAL_OR_KEYWORD
| VAR_POSITIONAL
| KEYWORD_ONLY
| VAR_KEYWORD.

#[global] Instance ParamKind_eq_dec : EqDecision ParamKind.
Proof. solve_decision. Defined.

(** What [inspect.isroutine] accepts: a function, method or builtin.
    [routine_co_argcount] is [anno.__code__.co_argcount] and is [None] when
    the routine has no [__code__]; [routine_signature] is the parameter list
    of [inspect.signature(anno)], which raises for a builtin without one;
    [routine_call] is the outcome of calling the routine on positional
    arguments and awaiting the result when it is awaitable. *)
Record Routine : Type := {
  routine_name : string;
  routine_co_argcount : option nat;
  routine_signature : Result (list ParamKind);
  routine_call : list Value → Result Value;
}.

(** An object with the host framework's converter capability. *)
Record ConverterObj : Type := {
  converter_name : string;
  convert : Value → Value → Result Value;
}.

(** The shapes [_get_converter] tells apart once an [Annotated] wrapper is
    removed.  [AOther] is anything else: a class, a typing construct, an
    instance; [other_callable] records whether Python's [callable] holds. *)
Inductive AnnoObj : Type :=
| AConverter (c : ConverterObj)
| ARoutine (r : Routine)
| AOther (other_callable : bool) (repr : string).

Inductive Anno : Type :=
| Plain (o : AnnoObj)
| Annotated (args : list AnnoObj).

(** The normalised converter.  [FnRoutine r] is the routine [r] itself,
    [FnOneArg r] the closure [_one_arg_convert] over [r], [FnMethod c] the
    function the host extracts from a converter object. *)
Inductive ConverterFn : Type :=
| FnRoutine (r : Routine)
| FnOneArg (r : Routine)
| FnMethod (c : ConverterObj).

(** [await ipy.utils.maybe_coroutine(f, ctx, value)] *)
Definition run_converter (f : ConverterFn) (ctx value : Value) : Result Value :=
  match f with
  | FnRoutine r => routine_call r [ctx; value]
  | FnOneArg r => routine_call r [value]
  | FnMethod c => convert c ctx value
  end.

(** [num_params], lines 32-35. *)
Definition num_params (r : Routine) : Result nat :=
  match routine_co_argcount r with
  | Some n => Ok n
  | None => let* ps := routine_signature r in Ok (length ps)
  end.

(** The count as the specification words it: the parameters of a signature
    that can be passed by position. *)
Definition positional_parameter_count (kinds : list ParamKind) : nat :=
  length (filter (λ k, k = POSITIONAL_ONLY ∨ k = POSITIONAL_OR_KEYWORD) kinds).

Definition arity_message (r : Routine) (name : string) (count : string) : string :=
  routine_name r ++ " for " ++ name ++ " has " ++ count
    ++ " positional arguments, which is unsupported.".

Section GetConverter.
(** [utils.get_from_anno_type] of the package's [utils] module: which
    argument of an [Annotated] type it returns is left open. *)
Variable get_from_anno_type : list AnnoObj → AnnoObj.
(** [ipy.BaseCommand._get_converter_function], the host framework's. *)
Variable _get_converter_function : ConverterObj → string → Result ConverterFn.

(** Lines 26-27. *)
Definition unwrap_annotated (anno : Anno) : AnnoObj :=
  match anno with
  | Annotated args => get_from_anno_type args
  | Plain o => o
  end.

Definition _get_converter (anno : Anno) (name : string)
  : Result (option ConverterFn) :=
  match unwrap_annotated anno with
  | AConverter c => let* f := _get_converter_function c name in Ok (Some f)
  | ARoutine r =>
      let* n := num_params r in
      match n with
      | 2 => Ok (Some (FnRoutine r))
      | 1 => Ok (Some (FnOneArg r))
      | 0 => Raise (ValueError (arity_message r name "0"))
      | _ => Raise (ValueError (arity_message r name "more than 2"))
      end
  | AOther _ _ => Ok None
  end.
End GetConverter.

End Converters.
Import Converters.

(** ** Signatures, parameter markers and protocol options *)

Module Signatures.

(** The host framework's option types. *)
Inductive OptionType : Type :=
| STRING | INTEGER | BOOLEAN | USER | CHANNEL | ROLE | MENTIONABLE | NUMBER
| ATTACHMENT.

#[global] Instance OptionType_eq_dec : EqDecision OptionType.
Proof. solve_decision. Defined.

(** The fields of the host's [SlashCommandOption] that the introspection
    reads or writes.  [opt_name] is [None] until a name is set;
    [opt_channel_types] is falsy when [None] or empty. *)
Record SlashCommandOption : Type := {
  opt_name : option string;
  opt_type : option OptionType;
  opt_description : string;
  opt_required : bool;
  opt_channel_types : option (list nat);
}.

(** [ipy.SlashCommandOption(name=..., type=...)] with the host's defaults for
    the fields left out. *)
Definition SlashCommandOption_init (name : string) (type : OptionType)
  : SlashCommandOption :=
  {| opt_name := Some name;
     opt_type := Some type;
     opt_description := "No Description Set";
     opt_required := true;
     opt_channel_types := None |}.

(** Modelled from the spec: the parameter marker [slash_param.ParamInfo],
    whose module is not among the source files.  The spec's data model lists
    its attributes: display name, description, default value ([PyMissing]
    when absent), declared option type, converter reference, channel-type
    restriction and the flag recording whether the type was user-supplied. *)
Record ParamInfo : Type := {
  pi_name : option string;
  pi_description : string;
  pi_default : Value;
  pi_type : option OptionType;
  pi_converter : option Anno;
  pi_channel_types : option (list nat);
  pi_user_provided_type : bool;
}.

(** [param.default] of an [inspect.Parameter]: [Parameter.empty], a marker,
    or any other value. *)
Inductive ParamDefault : Type :=
| DEmpty
| DMarker (info : ParamInfo)
| DValue (v : Value).

(** [inspect.Parameter] *)
Record SigParameter : Type := {
  p_name : string;
  p_kind : ParamKind;
  p_default : ParamDefault;
  p_annotation : Anno;
}.

(** [inspect.Signature]: [parameters] is the ordered name-to-parameter
    mapping. *)
Record Signature : Type := {
  sig_parameters : dict SigParameter;
}.

End Signatures.
Import Signatures.

(** ** The default-overwrite helper: [_overwrite_defaults] *)

Module Defaults.

(** A Python function object: the attributes the code reads or assigns. *)
Record FunctionObj : Type := {
  __name__ : string;
  __doc__ : option string;
  is_coroutine : bool;
  __defaults__ : option (list Value);
  __kwdefaults__ : option (dict Value);
  __tansy_describe__ : option (dict string);
}.

(** Function objects are shared and mutable: the store maps an object
    identity to the object's current attributes. *)
Definition Store : Type := nat → FunctionObj.

(** A callback is a function object, known by its identity, or a
    [functools.partial] around one with its pre-bound arguments. *)
Inductive Callable : Type :=
| Func (addr : nat)
| Partial (func : nat) (args : list Value) (keywords : dict Value).

#[global] Instance Callable_eq_dec : EqDecision Callable.
Proof. solve_decision. Defined.

(** [copy.copy].  Python's [copy] module treats function objects as atomic:
    [copy.copy(f)] is [f] itself, the same object.  A [functools.partial] is
    rebuilt from its parts, so the copy shares the inner function object. *)
Definition copy_copy (c : Callable) : Callable :=
  match c with
  | Func addr => Func addr
  | Partial func args keywords => Partial func args keywords
  end.

(** [functools.partial(c, v)] with one more positional argument; a partial
    of a partial is flattened. *)
Definition functools_partial (c : Callable) (extra : list Value) : Callable :=
  match c with
  | Func addr => Partial addr extra []
  | Partial func args keywords => Partial func (args ++ extra) keywords
  end.

(** The function object whose defaults are rewritten ([func_to_parse]). *)
Definition func_to_parse (c : Callable) : nat :=
  match c with
  | Func addr => addr
  | Partial func _ _ => func
  end.

(** [old_kwarg_defaults.get(name)] as a condition: the name has an old
    keyword-only default and that default is truthy. *)
Definition has_truthy_kwdefault (old_kwarg_defaults : dict Value)
  (name : string) : bool :=
  match dict_get old_kwarg_defaults name with
  | Some v => truthy v
  | None => false
  end.

(** The name is a parameter of kind [KEYWORD_ONLY]. *)
Definition is_keyword_only (parameters : dict SigParameter) (name : string)
  : bool :=
  match dict_get parameters name with
  | Some p => bool_decide (p_kind p = KEYWORD_ONLY)
  | None => false
  end.

(** The test of lines 124-127:
    [old_kwarg_defaults.get(name) or parameters[name].kind == KEYWORD_ONLY].
    [parameters[name]] is only evaluated when the first operand is falsy, and
    raises [KeyError] for a missing name. *)
Definition goes_to_kwdefaults (old_kwarg_defaults : dict Value)
  (parameters : dict SigParameter) (name : string) : Result bool :=
  if has_truthy_kwdefault old_kwarg_defaults name then Ok true
  else match dict_get parameters name with
       | Some p => Ok (bool_decide (p_kind p = KEYWORD_ONLY))
       | None => Raise (KeyError name)
       end.


(** The loop of lines 123-130 over [defaults.items()]. *)
Fixpoint split_defaults (old_kwarg_defaults : dict Value)
  (parameters : dict SigParameter) (items : list (string * Value))
  (new_defaults : list Value) (new_kwarg_defaults : dict Value)
  : Result (list Value * dict Value) :=
  match items with
  | [] => Ok (new_defaults, new_kwarg_defaults)
  | (name, default) :: rest =>
      let* kw := goes_to_kwdefaults old_kwarg_defaults parameters name in
      if (kw : bool)
      then split_defaults old_kwarg_defaults parameters rest
             new_defaults (dict_set new_kwarg_defaults name default)
      else split_defaults old_kwarg_defaults parameters rest
             (new_defaults ++ [default]) new_kwarg_defaults
  end.

(** [tuple(new_defaults) if new_defaults else None] *)
Definition tuple_or_None (l : list Value) : option (list Value) :=
  match l with
  | [] => None
  | _ :: _ => Some l
  end.

(** The two assignments of lines 132-133 on one function object. *)
Definition set_defaults (f : FunctionObj) (new_defaults : list Value)
  (new_kwarg_defaults : dict Value) : FunctionObj :=
  {| __name__ := __name__ f;
     __doc__ := __doc__ f;
     is_coroutine := is_coroutine f;
     __defaults__ := tuple_or_None new_defaults;
     __kwdefaults__ := dict_or_None new_kwarg_defaults;
     __tansy_describe__ := __tansy_describe__ f |}.

(** [_overwrite_defaults(func, defaults, parameters)], run on the store.
    It returns the outcome and the store afterwards. *)
Definition _overwrite_defaults (store : Store) (func : Callable)
  (defaults : dict Value) (parameters : dict SigParameter)
  : Result Callable * Store :=
  let func_copy := copy_copy func in
  let addr := func_to_parse func_copy in
  let old_kwarg_defaults := default [] (__kwdefaults__ (store addr)) in
  match split_defaults old_kwarg_defaults parameters defaults [] [] with
  | inl e => (Raise e, store)
  | inr (new_defaults, new_kwarg_defaults) =>
      let store' :=
        <[addr := set_defaults (store addr) new_defaults new_kwarg_defaults]> store in
      match func_copy with
      | Partial _ args keywords => (Ok (Partial addr args keywords), store')
      | Func _ => (Ok (Func addr), store')
      end
  end.

End Defaults.
Import Defaults.

(** ** The command object: [TansySlashCommand] *)

Module Commands.

(** [TansySlashCommandParameter].  [cp_default] is [PyMissing] for a
    parameter without a default. *)
Record TansySlashCommandParameter : Type := {
  cp_name : string;
  cp_argument_name : string;
  cp_default : Value;
  cp_type : option OptionType;
  cp_converter : option ConverterFn;
}.

(** The [optional] property: [self.default != ipy.MISSING]. *)
Definition optional (p : TansySlashCommandParameter) : bool :=
  bool_decide (cp_default p ≠ PyMissing).

(** [TansySlashCommand]: the host's slash-command fields that the code
    passes on, and the two fields the class adds. *)
Record TansySlashCommand : Type := {
  cmd_name : string;
  cmd_description : string;
  group_name : option string;
  group_description : option string;
  sub_cmd_name : option string;
  sub_cmd_description : string;
  default_member_permissions : option Z;
  dm_permission : bool;
  scopes : list Value;
  nsfw : bool;
  checks : list Value;
  callback : option Callable;
  has_binding : bool;
  options : list SlashCommandOption;
  parameters : dict TansySlashCommandParameter;
  _inspect_signature : option Signature;
}.

Definition set_callback (self : TansySlashCommand) (c : option Callable)
  : TansySlashCommand :=
  {| cmd_name := cmd_name self; cmd_description := cmd_description self;
     group_name := group_name self; group_description := group_description self;
     sub_cmd_name := sub_cmd_name self;
     sub_cmd_description := sub_cmd_description self;
     default_member_permissions := default_member_permissions self;
     dm_permission := dm_permission self; scopes := scopes self;
     nsfw := nsfw self; checks := checks self;
     callback := c;
     has_binding := has_binding self; options := options self;
     parameters := parameters self;
     _inspect_signature := _inspect_signature self |}.

Definition set_options (self : TansySlashCommand)
  (o : list SlashCommandOption) : TansySlashCommand :=
  {| cmd_name := cmd_name self; cmd_description := cmd_description self;
     group_name := group_name self; group_description := group_description self;
     sub_cmd_name := sub_cmd_name self;
     sub_cmd_description := sub_cmd_description self;
     default_member_permissions := default_member_permissions self;
     dm_permission := dm_permission self; scopes := scopes self;
     nsfw := nsfw self; checks := checks self;
     callback := callback self;
     has_binding := has_binding self; options := o;
     parameters := parameters self;
     _inspect_signature := _inspect_signature self |}.

Definition set_parameters (self : TansySlashCommand)
  (p : dict TansySlashCommandParameter) : TansySlashCommand :=
  {| cmd_name := cmd_name self; cmd_description := cmd_description self;
     group_name := group_name self; group_description := group_description self;
     sub_cmd_name := sub_cmd_name self;
     sub_cmd_description := sub_cmd_description self;
     default_member_permissions := default_member_permissions self;
     dm_permission := dm_permission self; scopes := scopes self;
     nsfw := nsfw self; checks := checks self;
     callback := callback self;
     has_binding := has_binding self; options := options self;
     parameters := p;
     _inspect_signature := _inspect_signature self |}.

Definition set_checks (self : TansySlashCommand) (c : list Value)
  : TansySlashCommand :=
  {| cmd_name := cmd_name self; cmd_description := cmd_description self;
     group_name := group_name self; group_description := group_description self;
     sub_cmd_name := sub_cmd_name self;
     sub_cmd_description := sub_cmd_description self;
     default_member_permissions := default_member_permissions self;
     dm_permission := dm_permission self; scopes := scopes self;
     nsfw := nsfw self; checks := c;
     callback := callback self;
     has_binding := has_binding self; options := options self;
     parameters := parameters self;
     _inspect_signature := _inspect_signature self |}.

Definition set_inspect_signature (self : TansySlashCommand)
  (s : option Signature) : TansySlashCommand :=
  {| cmd_name := cmd_name self; cmd_description := cmd_description self;
     group_name := group_name self; group_description := group_description self;
     sub_cmd_name := sub_cmd_name self;
     sub_cmd_description := sub_cmd_description self;
     default_member_permissions := default_member_permissions self;
     dm_permission := dm_permission self; scopes := scopes self;
     nsfw := nsfw self; checks := checks self;
     callback := callback self;
     has_binding := has_binding self; options := options self;
     parameters := parameters self;
     _inspect_signature := s |}.

(** Updates of single option fields. *)
Definition with_name (o : SlashCommandOption) (n : option string)
  : SlashCommandOption :=
  {| opt_name := n; opt_type := opt_type o;
     opt_description := opt_description o; opt_required := opt_required o;
     opt_channel_types := opt_channel_types o |}.

Definition with_type (o : SlashCommandOption) (t : option OptionType)
  : SlashCommandOption :=
  {| opt_name := opt_name o; opt_type := t;
     opt_description := opt_description o; opt_required := opt_required o;
     opt_channel_types := opt_channel_types o |}.

Definition with_description (o : SlashCommandOption) (d : string)
  : SlashCommandOption :=
  {| opt_name := opt_name o; opt_type := opt_type o;
     opt_description := d; opt_required := opt_required o;
     opt_channel_types := opt_channel_types o |}.

Definition with_required (o : SlashCommandOption) (r : bool)
  : SlashCommandOption :=
  {| opt_name := opt_name o; opt_type := opt_type o;
     opt_description := opt_description o; opt_required := r;
     opt_channel_types := opt_channel_types o |}.

Definition with_channel_types (o : SlashCommandOption) (c : option (list nat))
  : SlashCommandOption :=
  {| opt_name := opt_name o; opt_type := opt_type o;
     opt_description := opt_description o; opt_required := opt_required o;
     opt_channel_types := c |}.

(** [isinstance(param.default, slash_param.ParamInfo)], lines 232-236. *)
Definition marker_of (param : SigParameter) : option ParamInfo :=
  match p_default param with
  | DMarker info => Some info
  | _ => None
  end.

(** Lines 264-270: the default before the nullable-annotation rule, and the
    option after [option.required = False] where the code sets it. *)
Definition declared_default (param : SigParameter) (option : SlashCommandOption)
  : SlashCommandOption * Value :=
  match p_default param with
  | DMarker info => (option, pi_default info)
  | DValue v => (with_required option false, v)
  | DEmpty => (option, PyMissing)
  end.

(** [not param_info or not param_info._user_provided_type] *)
Definition no_user_type (param : SigParameter) : bool :=
  match marker_of param with
  | Some info => negb (pi_user_provided_type info)
  | None => true
  end.

(** [not option.channel_types] *)
Definition no_channel_types (o : SlashCommandOption) : bool :=
  match opt_channel_types o with
  | Some (_ :: _) => false
  | _ => true
  end.

Definition invalid_type_message (param : SigParameter) : string :=
  "Invalid/no provided type for " ++ p_name param.

Definition invalid_converter_message (param : SigParameter) : string :=
  "The converter for " ++ p_name param ++ " is invalid. Please make"
    ++ " sure it is either a Converter-like class or a function.".

Definition keyword_message : string :=
  "All parameters must be able to be used via keyword arguments.".

Section Introspection.
(** Helpers of the package's [utils] and [slash_param] modules and of the
    host framework, kept abstract. *)
Variable get_from_anno_type : list AnnoObj → AnnoObj.
Variable _get_converter_function : ConverterObj → string → Result ConverterFn.
Variable get_option : Anno → Result OptionType.
Variable is_optional : Anno → bool.
(** [utils.resolve_channel_types]: a list of channel types, or [None]. *)
Variable resolve_channel_types : Anno → option (list nat).
Variable generate_option : ParamInfo → SlashCommandOption.
(** [attrs.validate] on an option and on the command. *)
Variable validate_option : SlashCommandOption → Result unit.
Variable validate_command : TansySlashCommand → Result unit.
(** [inspect.signature] *)
Variable inspect_signature : Store → Callable → Result Signature.

(** The [try: utils.get_option(...) except ValueError: raise ValueError(...)]
    of lines 241-246 and 257-262. *)
Definition option_type_of (param : SigParameter) : Result OptionType :=
  match get_option (p_annotation param) with
  | inr t => Ok t
  | inl (ValueError _) => Raise (ValueError (invalid_type_message param))
  | inl e => Raise e
  end.

(** Lines 278-284: the nullable-annotation rule. *)
Definition nullable_rule (param : SigParameter)
  (state : SlashCommandOption * Value) : SlashCommandOption * Value :=
  if bool_decide (state.2 = PyMissing) && no_user_type param
     && is_optional (p_annotation param)
  then (with_required state.1 false, PyNone)
  else state.

(** Lines 293-302. *)
Definition resolve_converter (param : SigParameter)
  : Result (option ConverterFn) :=
  let from_annotation :=
    _get_converter get_from_anno_type _get_converter_function
      (p_annotation param) (p_name param) in
  match marker_of param with
  | Some info =>
      match pi_converter info with
      | Some c =>
          let* f := _get_converter get_from_anno_type _get_converter_function
                      c (p_name param) in
          match f with
          | Some convert_func => Ok (Some convert_func)
          | None => Raise (ValueError (invalid_converter_message param))
          end
      | None => from_annotation
      end
  | None => from_annotation
  end.

(** Lines 238-247: the option a marker generates, or one synthesised from
    the annotation. *)
Definition initial_option (param : SigParameter) : Result SlashCommandOption :=
  match marker_of param with
  | Some info => Ok (generate_option info)
  | None =>
      let* option_type := option_type_of param in
      Ok (SlashCommandOption_init (p_name param) option_type)
  end.

(** Line 249: [str(option.name) if option.name else param.name]. *)
Definition resolved_name (param : SigParameter) (option : SlashCommandOption)
  : string :=
  if str_truthy (opt_name option) then default "" (opt_name option)
  else p_name param.

(** Lines 251-254: the option's name, and a description override from the
    [describes] table. *)
Definition described_option (describes : dict string) (param : SigParameter)
  (option : SlashCommandOption) : SlashCommandOption :=
  let option := with_name option (Some (resolved_name param option)) in
  match dict_get describes (resolved_name param option) with
  | Some desc => if String.eqb desc "" then option
                 else with_description option desc
  | None => option
  end.

(** Lines 256-262: a second try at the option type. *)
Definition typed_option (param : SigParameter) (option : SlashCommandOption)
  : Result SlashCommandOption :=
  match opt_type option with
  | None => let* t := option_type_of param in Ok (with_type option (Some t))
  | Some _ => Ok option
  end.

(** Lines 286-291: channel types inferred from the annotation. *)
Definition channel_option (param : SigParameter) (option : SlashCommandOption)
  : SlashCommandOption :=
  match marker_of param with
  | Some _ =>
      if bool_decide (opt_type option = Some CHANNEL) && no_channel_types option
      then with_channel_types option
             (resolve_channel_types (p_annotation param))
      else option
  | None => option
  end.

(** The body of the loop, lines 231-308, for one parameter that can be
    passed by keyword: the option to append and the parameter to record. *)
Definition parse_parameter (describes : dict string) (param : SigParameter)
  : Result (SlashCommandOption * TansySlashCommandParameter) :=
  let* option := initial_option param in
  let name := resolved_name param option in
  let* option := typed_option param (described_option describes param option) in
  let state := nullable_rule param (declared_default param option) in
  let option := channel_option param state.1 in
  let* converter := resolve_converter param in
  let* _ := validate_option option in
  Ok (option,
      {| cp_name := name; cp_argument_name := p_name param;
         cp_default := state.2; cp_type := None;
         cp_converter := converter |}).

(** The loop of lines 218-308 over the signature's parameters.  An error
    leaves the options and parameters collected so far in place. *)
Fixpoint parse_loop (describes : dict string) (params : list SigParameter)
  (options : list SlashCommandOption)
  (parameters : dict TansySlashCommandParameter)
  : Result unit * (list SlashCommandOption * dict TansySlashCommandParameter) :=
  match params with
  | [] => (Ok tt, (options, parameters))
  | param :: rest =>
      match p_kind param with
      | VAR_KEYWORD => parse_loop describes rest options parameters
      | POSITIONAL_OR_KEYWORD | KEYWORD_ONLY =>
          match parse_parameter describes param with
          | inl e => (Raise e, (options, parameters))
          | inr (option, cmd_param) =>
              parse_loop describes rest (options ++ [option])
                (dict_set parameters (cp_name cmd_param) cmd_param)
          end
      | _ => (Raise (ValueError keyword_message), (options, parameters))
      end
  end.

(** The dict comprehension of lines 189-191. *)
Definition parameter_defaults (parameters : dict TansySlashCommandParameter)
  : dict Value :=
  dict_of_items
    ((fun p => (cp_argument_name p, cp_default p))
       <$> filter (fun p => optional p = true) (dict_values parameters)).

(** [_overwrite_with_parameters], on the command and the store. *)
Definition _overwrite_with_parameters (self : TansySlashCommand) (store : Store)
  : Result unit * (TansySlashCommand * Store) :=
  let defaults := parameter_defaults (parameters self) in
  match _inspect_signature self with
  | None =>
      (Raise (AttributeError "'NoneType' object has no attribute 'parameters'"),
       (self, store))
  | Some signature =>
      match callback self with
      | None =>
          (Raise (AttributeError
                    "'NoneType' object has no attribute '__kwdefaults__'"),
           (self, store))
      | Some func =>
          match _overwrite_defaults store func defaults
                  (sig_parameters signature) with
          | (inl e, store') => (Raise e, (self, store'))
          | (inr func', store') => (Ok tt, (set_callback self (Some func'), store'))
          end
      end
  end.

(** [getattr(self.callback, "__tansy_describe__", {})] *)
Definition describes_of (store : Store) (c : Callable) : dict string :=
  match c with
  | Func addr => default [] (__tansy_describe__ (store addr))
  | Partial _ _ _ => []
  end.

(** [_parse_parameters], on the command and the store. *)
Definition _parse_parameters (self : TansySlashCommand) (store : Store)
  : Result unit * (TansySlashCommand * Store) :=
  match callback self with
  | None => (Ok tt, (self, store))
  | Some func =>
      if dict_truthy (parameters self)
      then _overwrite_with_parameters self store
      else
        let self := set_options self [] in
        let signature :=
          match _inspect_signature self with
          | Some s => Ok s
          | None =>
              inspect_signature store
                (functools_partial func
                   (if has_binding self then [PyNone; PyNone] else [PyNone]))
          end in
        match signature with
        | inl e => (Raise e, (self, store))
        | inr s =>
            let self := set_inspect_signature self (Some s) in
            let describes := describes_of store func in
            let '(r, (opts, params)) :=
              parse_loop describes (dict_values (sig_parameters s))
                (options self) (parameters self) in
            let self := set_parameters (set_options self opts) params in
            match r with
            | inl e => (Raise e, (self, store))
            | inr _ =>
                match validate_command self with
                | inl e => (Raise e, (self, store))
                | inr _ => _overwrite_with_parameters self store
                end
            end
        end
  end.

End Introspection.

(** *** Invocation: [call_callback] *)

(** The host's interaction context: the object handed to converters and to
    the callback, and its already-decoded keyword arguments. *)
Record InteractionContext : Type := {
  ctx_object : Value;
  kwargs : dict Value;
}.

(** A callable as [call_callback] uses it: called on positional and keyword
    arguments and awaited. *)
Definition PyCallback : Type := list Value → dict Value → Result Value.

(** Lines 337-340: [await maybe_coroutine(param.converter, ctx, value)] when
    the parameter has a converter, the raw value otherwise. *)
Definition converted_value (param : TansySlashCommandParameter)
  (ctx value : Value) : Result Value :=
  match cp_converter param with
  | Some f => run_converter f ctx value
  | None => Ok value
  end.

(** The loop of lines 330-341, started from [new_kwargs]. *)
Fixpoint remap_kwargs (parameters : dict TansySlashCommandParameter)
  (ctx : Value) (items : list (string * Value)) (new_kwargs : dict Value)
  : Result (dict Value) :=
  match items with
  | [] => Ok new_kwargs
  | (key, value) :: rest =>
      match dict_get parameters key with
      | None => remap_kwargs parameters ctx rest (dict_set new_kwargs key value)
      | Some param =>
          let* converted := converted_value param ctx value in
          remap_kwargs parameters ctx rest
            (dict_set new_kwargs (cp_argument_name param) converted)
      end
  end.

(** The name under which the loop writes an incoming key, and the value it
    writes there. *)
Definition written_name (parameters : dict TansySlashCommandParameter)
  (key : string) : string :=
  match dict_get parameters key with
  | Some param => cp_argument_name param
  | None => key
  end.

Definition written_value (parameters : dict TansySlashCommandParameter)
  (ctx : Value) (key : string) (value : Value) : Result Value :=
  match dict_get parameters key with
  | Some param => converted_value param ctx value
  | None => Ok value
  end.

Section Invocation.
(** The host's [call_with_binding]. *)
Variable call_with_binding :
  TansySlashCommand → PyCallback → list Value → dict Value → Result Value.

Definition call_callback (self : TansySlashCommand) (callback : PyCallback)
  (ctx : InteractionContext) : Result Value :=
  if negb (dict_truthy (parameters self))
  then callback [ctx_object ctx] (kwargs ctx)
  else
    let* new_kwargs :=
      remap_kwargs (parameters self) (ctx_object ctx) (kwargs ctx) [] in
    call_with_binding self callback [ctx_object ctx] new_kwargs.
End Invocation.

(** *** Deriving a subcommand: [subcommand] *)

(** [ipy.Absent]: the [MISSING] sentinel or a given value. *)
Inductive Absent (A : Type) : Type :=
| MISSING
| Given (a : A).
Arguments MISSING {A}.
Arguments Given {A} a.

(** The fields as the generated constructor stores them: the keyword
    arguments it is given, and the defaults of the fields the callers leave
    out, the class's own two among them (an empty mapping, no cached
    signature). *)
Definition stored_fields (name description : string)
  (group_name group_description sub_cmd_name : option string)
  (sub_cmd_description : string) (default_member_permissions : option Z)
  (dm_permission : bool) (callback : option Callable) (scopes : list Value)
  (nsfw : bool) (checks : list Value) : TansySlashCommand :=
  {| cmd_name := name; cmd_description := description;
     group_name := group_name; group_description := group_description;
     sub_cmd_name := sub_cmd_name; sub_cmd_description := sub_cmd_description;
     default_member_permissions := default_member_permissions;
     dm_permission := dm_permission; scopes := scopes; nsfw := nsfw;
     checks := checks; callback := callback; has_binding := false;
     options := []; parameters := []; _inspect_signature := None |}.

(** What the closure [wrapper] holds: the base command and the arguments of
    [subcommand].  [env_sub_cmd_description] is the [nonlocal] variable the
    closure assigns. *)
Record WrapperEnv : Type := {
  env_self : TansySlashCommand;
  env_sub_cmd_name : string;
  env_group_name : option string;
  env_sub_cmd_description : Absent string;
  env_group_description : option string;
  env_nsfw : bool;
  env_inherit_checks : bool;
}.

(** [self.subcommand(...)] returns the closure. *)
Definition subcommand (self : TansySlashCommand) (sub_cmd_name : string)
  (group_name : option string) (sub_cmd_description : Absent string)
  (group_description : option string) (nsfw inherit_checks : bool)
  : WrapperEnv :=
  {| env_self := self; env_sub_cmd_name := sub_cmd_name;
     env_group_name := group_name;
     env_sub_cmd_description := sub_cmd_description;
     env_group_description := group_description; env_nsfw := nsfw;
     env_inherit_checks := inherit_checks |}.

Definition set_env_self (env : WrapperEnv) (self : TansySlashCommand)
  : WrapperEnv :=
  {| env_self := self; env_sub_cmd_name := env_sub_cmd_name env;
     env_group_name := env_group_name env;
     env_sub_cmd_description := env_sub_cmd_description env;
     env_group_description := env_group_description env;
     env_nsfw := env_nsfw env;
     env_inherit_checks := env_inherit_checks env |}.

Definition set_sub_cmd_description (env : WrapperEnv) (d : Absent string)
  : WrapperEnv :=
  {| env_self := env_self env; env_sub_cmd_name := env_sub_cmd_name env;
     env_group_name := env_group_name env;
     env_sub_cmd_description := d;
     env_group_description := env_group_description env;
     env_nsfw := env_nsfw env;
     env_inherit_checks := env_inherit_checks env |}.

Definition no_description : string := "No Description Set".

Section Subcommand.
(** [functools.partial.__doc__], the class's own documentation string. *)
Variable partial_doc : option string.
(** The host's part of the constructor, whose source is not in this
    repository.  Its field validators run on the stored arguments and can
    refuse them with an exception (a description longer than the protocol
    allows, for one).  Its post-init then extends the command's list of
    checks, in place, with the checks a decorator has attached to the
    callback; [callback_checks] is that attribute, empty where the callback
    has none. *)
Variable host_validators : TansySlashCommand → Result unit.
Variable callback_checks : Callable → list Value.

(** [TansySlashCommand(...)]: the outcome, and the list object that was
    passed as [checks] as it is afterwards.  The new command holds that very
    list, so the extension shows on every object that shares it. *)
Definition TansySlashCommand_init (name description : string)
  (group_name group_description sub_cmd_name : option string)
  (sub_cmd_description : string) (default_member_permissions : option Z)
  (dm_permission : bool) (callback : option Callable) (scopes : list Value)
  (nsfw : bool) (checks : list Value)
  : Result TansySlashCommand * list Value :=
  let fields :=
    stored_fields name description group_name group_description sub_cmd_name
      sub_cmd_description default_member_permissions dm_permission callback
      scopes nsfw checks in
  match host_validators fields with
  | inl e => (Raise e, checks)
  | inr _ =>
      let extended :=
        match callback with
        | Some call => checks ++ callback_checks call
        | None => checks
        end in
      (Ok (set_checks fields extended), extended)
  end.

(** [asyncio.iscoroutinefunction(call)]; it looks through a partial. *)
Definition iscoroutinefunction (store : Store) (call : Callable) : bool :=
  is_coroutine (store (func_to_parse call)).

(** [call.__doc__] *)
Definition doc_of (store : Store) (call : Callable) : option string :=
  match call with
  | Func addr => __doc__ (store addr)
  | Partial _ _ _ => partial_doc
  end.

(** [call.__doc__ or "No Description Set"] *)
Definition doc_or_default (store : Store) (call : Callable) : string :=
  default no_description
    (str_or (doc_of store call) (Some no_description)).

(** The closure [wrapper] of lines 369-393: its outcome and the closure's
    environment afterwards.  The [nonlocal] description is assigned before
    the constructor is called.  With [inherit_checks] the constructor is
    handed the base command's own list of checks, so what the constructor
    does to that list is done to the base command. *)
Definition wrapper (env : WrapperEnv) (store : Store) (call : Callable)
  : Result TansySlashCommand * WrapperEnv :=
  if negb (iscoroutinefunction store call)
  then (Raise (TypeError "Subcommand must be coroutine"), env)
  else
    let description :=
      match env_sub_cmd_description env with
      | MISSING => doc_or_default store call
      | Given d => d
      end in
    let env := set_sub_cmd_description env (Given description) in
    let self := env_self env in
    let built :=
      TansySlashCommand_init (cmd_name self) (cmd_description self)
        (str_or (env_group_name env) (group_name self))
        (str_or (env_group_description env) (group_description self))
        (Some (env_sub_cmd_name env)) description
        (default_member_permissions self) (dm_permission self)
        (Some call) (scopes self) (env_nsfw env)
        (if env_inherit_checks env then checks self else []) in
    (built.1,
     if env_inherit_checks env
     then set_env_self env (set_checks self built.2)
     else env).
End Subcommand.

End Commands.
Import Commands.

(** ** The transport patch: [speedup/orjson_serialize.py] *)

Module OrjsonSerialize.

(** The text codecs [bytes.decode] can find.  Python's registry has more
    entries than the ones listed; none of them answers to the label the
    handler passes. *)
Inductive Codec : Type :=
| UTF_8 | UTF_16 | UTF_32 | ASCII | LATIN_1.

(** [codecs.lookup], on labels already in lower case. *)
Definition codecs_lookup (encoding : string) : option Codec :=
  if bool_decide (encoding ∈ ["utf-8"; "utf_8"; "utf8"; "u8"]) then Some UTF_8
  else if bool_decide (encoding ∈ ["utf-16"; "utf_16"; "utf16"; "u16"]) then Some UTF_16
  else if bool_decide (encoding ∈ ["utf-32"; "utf_32"; "utf32"; "u32"]) then Some UTF_32
  else if bool_decide (encoding ∈ ["ascii"; "us-ascii"; "646"]) then Some ASCII
  else if bool_decide (encoding ∈ ["latin-1"; "latin_1"; "latin1"; "iso-8859-1"; "l1"])
  then Some LATIN_1
  else None.

(** A function installed as a session's serializer, known by which
    function it is. *)
Inductive Serializer : Type :=
| json_dumps
| orjson_dumps_handler_fn.

(** The host's client session: the serialization hook. *)
Record ClientSession : Type := {
  _json_serialize : Serializer;
}.

(** An instance of the host's [HTTPClient]: its session, and the rest of
    its state, which only the host's own [login] touches.  A client has no
    session object until the host's [login] has run: that is where the
    session is created. *)
Record HTTPClientObj : Type := {
  _HTTPClient__session : option ClientSession;
  client_state : Value;
}.

(** A coroutine object over the client: the suspended computation, which
    runs only when awaited. *)
Definition Coroutine : Type := HTTPClientObj → Result Value * HTTPClientObj.

(** The classes of the module and the functions a class attribute may hold. *)
Inductive HTTPClass : Type :=
| HTTPClient
| ToBeOrJsonHTTP.

Inductive Method : Type :=
| host_function (name : string)
| module_function (name : string).

#[global] Instance Method_eq_dec : EqDecision Method.
Proof. solve_decision. Defined.

(** The attributes of the host's [HTTPClient] type. *)
Record HTTPClientType : Type := {
  HTTPClient___init__ : Method;
  HTTPClient_login : Method;
}.

(** The module's globals after import, with the host's client type. *)
Record ModuleState : Type := {
  OrJsonHTTP : option HTTPClass;
  http_client_type : HTTPClientType;
}.

(** Lines 5-23: [OrJsonHTTP] is the subclass when [import orjson] succeeds
    and stays [None] on [ImportError]. *)
Definition import_module (orjson_importable : bool) (host : HTTPClientType)
  : ModuleState :=
  {| OrJsonHTTP := if orjson_importable then Some ToBeOrJsonHTTP else None;
     http_client_type := host |}.

(** [cls.__init__]: the subclass defines only [login], so its [__init__]
    is the one inherited from [HTTPClient]. *)
Definition class_init (st : ModuleState) (cls : HTTPClass) : Method :=
  match cls with
  | HTTPClient => HTTPClient___init__ (http_client_type st)
  | ToBeOrJsonHTTP => HTTPClient___init__ (http_client_type st)
  end.

(** [patch()] on the module state. *)
Definition patch (st : ModuleState) : Result unit * ModuleState :=
  match OrJsonHTTP st with
  | None => (Raise (ImportError "orjson is not installed."), st)
  | Some cls =>
      (Ok tt,
       {| OrJsonHTTP := OrJsonHTTP st;
          http_client_type :=
            {| HTTPClient___init__ := class_init st cls;
               HTTPClient_login := HTTPClient_login (http_client_type st) |} |})
  end.

Section Handler.
(** [orjson.dumps], the external codec's encoder. *)
Variable orjson_dumps : Value → Result (list Byte.byte).
(** The decoders of the codecs Python knows. *)
Variable decode_with : Codec → list Byte.byte → Result string.
(** The standard library's [json.dumps], the session's default hook. *)
Variable json_dumps_fn : Value → Result string.
(** The host's [HTTPClient.login], as a coroutine function. *)
Variable super_login : string → Coroutine.
(** The message of the [AttributeError] that Python raises when an attribute
    is assigned on what a client holds in place of a session before the
    host's [login] has run. *)
Variable no_session_message : string.

(** [b.decode(encoding)].  CPython returns the empty string for empty input
    without looking the codec up; otherwise an unknown label raises
    [LookupError]. *)
Definition bytes_decode (b : list Byte.byte) (encoding : string)
  : Result string :=
  match b with
  | [] => Ok ""
  | _ :: _ =>
      match codecs_lookup encoding with
      | Some codec => decode_with codec b
      | None => Raise (LookupError ("unknown encoding: " ++ encoding))
      end
  end.

(** Lines 10-11. *)
Definition orjson_dumps_handler (obj : Value) : Result string :=
  let* encoded := orjson_dumps obj in
  bytes_decode encoded "utf-9".

(** Calling whatever function the session's hook holds. *)
Definition call_serializer (f : Serializer) (obj : Value) : Result string :=
  match f with
  | json_dumps => json_dumps_fn obj
  | orjson_dumps_handler_fn => orjson_dumps_handler obj
  end.

(** [ToBeOrJsonHTTP.login], lines 14-18.  [super().login(token)] is called
    but not awaited: the coroutine object is kept and returned as it is, and
    the host's login has not run when line 17 assigns to the session.  On a
    client without a session object the assignment raises [AttributeError]
    and nothing is installed. *)
Definition login (self : HTTPClientObj) (token : string)
  : Result Coroutine * HTTPClientObj :=
  let to_return := super_login token in
  match _HTTPClient__session self with
  | None => (Raise (AttributeError no_session_message), self)
  | Some _ =>
      (Ok to_return,
       {| _HTTPClient__session :=
            Some {| _json_serialize := orjson_dumps_handler_fn |};
          client_state := client_state self |})
  end.
End Handler.

End OrjsonSerialize.
Import OrjsonSerialize.

(** ** Deriving a group, and the two decorator factories *)

Module Decorators.

(** [func.default_member_permissions]: the permission flags a permission
    decorator has attached to a function object, where it has. *)
Definition PermissionAttrs : Type := nat → option Z.

(** [hasattr(func, "default_member_permissions")] and the attribute's value;
    a partial carries no such attribute of its own. *)
Definition permissions_of (attrs : PermissionAttrs) (func : Callable)
  : option Z :=
  match func with
  | Func addr => attrs addr
  | Partial _ _ _ => None
  end.

(** Lines 436-441: the decorator's permissions joined with the callback's.
    [if perm:] is false for [None] and for the empty flag set. *)
Definition merged_permissions (perm attr : option Z) : option Z :=
  match attr with
  | Some func_perm =>
      match perm with
      | Some p => if Z.eqb p 0 then Some func_perm else Some (Z.lor p func_perm)
      | None => Some func_perm
      end
  | None => perm
  end.

(** [scopes or [ipy.const.GLOBAL_SCOPE]] *)
Definition scopes_or (global_scope : Value) (scopes : option (list Value))
  : list Value :=
  match scopes with
  | Some (s :: rest) => s :: rest
  | _ => [global_scope]
  end.

(** [(a or b) or "No Description Set"] *)
Definition description_or (a b : option string) : string :=
  default no_description (str_or (str_or a b) (Some no_description)).

Section Factories.
(** The host's [GLOBAL_SCOPE] constant, the documentation string of
    [functools.partial], the values the class's constructor gives to the
    arguments [group] leaves out, and the host's part of the constructor. *)
Variable GLOBAL_SCOPE : Value.
Variable partial_doc : option string.
Variable class_defaults : TansySlashCommand.
Variable host_validators : TansySlashCommand → Result unit.
Variable callback_checks : Callable → list Value.

(** [TansySlashCommand.group], lines 345-358: the outcome and the base
    command afterwards.  With [inherit_checks] the new command is handed the
    base command's own list of checks. *)
Definition group (self : TansySlashCommand) (name : option string)
  (description : string) (inherit_checks : bool)
  : Result TansySlashCommand * TansySlashCommand :=
  let built :=
    TansySlashCommand_init host_validators callback_checks
      (cmd_name self) (cmd_description self)
      name (Some description)
      (sub_cmd_name class_defaults) (sub_cmd_description class_defaults)
      (default_member_permissions class_defaults) (dm_permission class_defaults)
      (callback class_defaults) (scopes self) (nsfw class_defaults)
      (if inherit_checks then checks self else []) in
  (built.1, if inherit_checks then set_checks self built.2 else self).

(** The closure returned by [tansy_slash_command(name, ...)], lines 432-459,
    applied to [func].  No [checks] are passed: the constructor starts from
    the class's default, a new empty list. *)
Definition tansy_slash_command (name : string) (description : Absent string)
  (scopes : option (list Value)) (default_member_permissions : option Z)
  (dm_permission : bool) (sub_cmd_name group_name : option string)
  (sub_cmd_description group_description : string) (nsfw : bool)
  (store : Store) (attrs : PermissionAttrs) (func : Callable)
  : Result TansySlashCommand :=
  if negb (iscoroutinefunction store func)
  then Raise (ValueError "Commands must be coroutines")
  else
    let perm :=
      merged_permissions default_member_permissions (permissions_of attrs func) in
    let _description :=
      match description with
      | MISSING => doc_or_default partial_doc store func
      | Given d => d
      end in
    (TansySlashCommand_init host_validators callback_checks
       name _description group_name
       (Some group_description) sub_cmd_name sub_cmd_description perm
       dm_permission (Some func) (scopes_or GLOBAL_SCOPE scopes) nsfw []).1.

(** The closure returned by [tansy_subcommand(base, ...)], lines 498-520,
    applied to [func]. *)
Definition tansy_subcommand (base : string)
  (subcommand_group name : option string) (description : Absent string)
  (base_description base_desc : option string)
  (base_default_member_permissions : option Z) (base_dm_permission : bool)
  (subcommand_group_description sub_group_desc : option string)
  (scopes : option (list Value)) (nsfw : bool)
  (store : Store) (func : Callable) : Result TansySlashCommand :=
  if negb (iscoroutinefunction store func)
  then Raise (ValueError "Commands must be coroutines")
  else
    let _description :=
      match description with
      | MISSING => doc_or_default partial_doc store func
      | Given d => d
      end in
    (TansySlashCommand_init host_validators callback_checks
       base (description_or base_description base_desc)
       subcommand_group
       (Some (description_or subcommand_group_description sub_group_desc))
       name _description base_default_member_permissions
       base_dm_permission (Some func) (scopes_or GLOBAL_SCOPE scopes) nsfw
       []).1.

(** The commands that the decorators build and that [group] and
    [subcommand] derive from them, also after their list of checks has been
    extended through a command that shares it. *)
Inductive Derived : TansySlashCommand → Prop :=
| derived_slash_command name description scopes perm dm sub_name group_name
    sub_desc group_desc nsfw store attrs func cmd :
    tansy_slash_command name description scopes perm dm sub_name group_name
      sub_desc group_desc nsfw store attrs func = Ok cmd →
    Derived cmd
| derived_tansy_subcommand base sub_group name description base_description
    base_desc perm dm group_description sub_group_desc scopes nsfw store func
    cmd :
    tansy_subcommand base sub_group name description base_description
      base_desc perm dm group_description sub_group_desc scopes nsfw store
      func = Ok cmd →
    Derived cmd
| derived_group base name description inherit_checks cmd base' :
    Derived base →
    group base name description inherit_checks = (Ok cmd, base') →
    Derived cmd
| derived_checks_extended base extended :
    Derived base → Derived (set_checks base extended)
| derived_subcommand env store call cmd env' :
    Derived (env_self env) →
    wrapper partial_doc host_validators callback_checks env store call
    = (Ok cmd, env') →
    Derived cmd.

End Factories.

End Decorators.
Import Decorators.

(** * Concrete inputs used to exercise the model *)

Module Examples.

(** Reading a decimal numeral, as Python's [int] does on a digit string. *)
Fixpoint digits_value (s : string) (acc : Z) : option Z :=
  match s with
  | EmptyString => Some acc
  | String c rest =>
      let n := Ascii.nat_of_ascii c in
      if (48 <=? n)%nat && (n <=? 57)%nat
      then digits_value rest (10 * acc + Z.of_nat (n - 48))
      else None
  end.

(** [def to_int(arg): return int(arg)], a converter of one positional
    parameter. *)
Definition to_int_call (args : list Value) : Result Value :=
  match args with
  | [PyStr (String c rest)] =>
      match digits_value (String c rest) 0 with
      | Some z => Ok (PyInt z)
      | None => Raise (ValueError "invalid literal for int() with base 10")
      end
  | [_] => Raise (ValueError "invalid literal for int() with base 10")
  | _ => Raise (TypeError "to_int() takes 1 positional argument")
  end.

Definition to_int : Routine :=
  {| routine_name := "to_int";
     routine_co_argcount := Some 1;
     routine_signature := Ok [POSITIONAL_OR_KEYWORD];
     routine_call := to_int_call |}.

(** Stand-ins for the helpers kept abstract in the model. *)
Definition first_metadata (args : list AnnoObj) : AnnoObj :=
  match args with
  | _ :: o :: _ => o
  | _ => AOther false "Annotated"
  end.

Definition host_converter_function (c : ConverterObj) (name : string)
  : Result ConverterFn := Ok (FnMethod c).

(** Parameters annotated [int], of a given kind and without a default. *)
Definition int_anno : Anno := Plain (AOther true "int").

Definition plain_param (name : string) (kind : ParamKind) : SigParameter :=
  {| p_name := name; p_kind := kind; p_default := DEmpty;
     p_annotation := int_anno |}.

(** A store whose object 0 is the given function. *)
Definition blank_function : FunctionObj :=
  {| __name__ := ""; __doc__ := None; is_coroutine := false;
     __defaults__ := None; __kwdefaults__ := None;
     __tansy_describe__ := None |}.

Definition store_with (f : FunctionObj) : Store :=
  <[0%nat := f]> (fun _ => blank_function).

(** [async def f(ctx, a=1): ...] *)
Definition f_positional : FunctionObj :=
  {| __name__ := "f"; __doc__ := None; is_coroutine := true;
     __defaults__ := Some [PyInt 1]; __kwdefaults__ := None;
     __tansy_describe__ := None |}.

(** [async def g(ctx, a=1, *, flag=True, level=2): ...] *)
Definition g_mixed : FunctionObj :=
  {| __name__ := "g"; __doc__ := Some "Mixed defaults."; is_coroutine := true;
     __defaults__ := Some [PyInt 1];
     __kwdefaults__ := Some [("flag", PyBool true); ("level", PyInt 2)];
     __tansy_describe__ := None |}.

Definition g_parameters : dict SigParameter :=
  [("a", plain_param "a" POSITIONAL_OR_KEYWORD);
   ("flag", plain_param "flag" KEYWORD_ONLY);
   ("level", plain_param "level" KEYWORD_ONLY)].

(** A function object whose keyword-only default of [x] is the falsy [0],
    handed over with a parameter mapping in which [x] is not keyword-only. *)
Definition h_falsy : FunctionObj :=
  {| __name__ := "h"; __doc__ := None; is_coroutine := true;
     __defaults__ := None; __kwdefaults__ := Some [("x", PyInt 0)];
     __tansy_describe__ := None |}.

Definition h_parameters : dict SigParameter :=
  [("x", plain_param "x" POSITIONAL_OR_KEYWORD)].

(** Stand-ins for [utils.get_option], [utils.is_optional],
    [utils.resolve_channel_types], [ParamInfo.generate_option],
    [attrs.validate] and [inspect.signature]. *)
Definition optional_int_anno : Anno := Plain (AOther true "Optional[int]").

Definition anno_repr (anno : Anno) : string :=
  match anno with
  | Plain (AOther _ repr) => repr
  | _ => ""
  end.

Definition get_option (anno : Anno) : Result OptionType :=
  if decide (anno_repr anno = "int") then Ok INTEGER
  else if decide (anno_repr anno = "Optional[int]") then Ok INTEGER
  else if decide (anno_repr anno = "str") then Ok STRING
  else Raise (ValueError "unknown annotation").

Definition is_optional (anno : Anno) : bool :=
  bool_decide (anno_repr anno = "Optional[int]").

Definition resolve_channel_types (anno : Anno) : option (list nat) := None.

Definition generate_option (info : ParamInfo) : SlashCommandOption :=
  {| opt_name := pi_name info; opt_type := pi_type info;
     opt_description := pi_description info;
     opt_required := bool_decide (pi_default info = PyMissing);
     opt_channel_types := pi_channel_types info |}.

Definition validate_option (o : SlashCommandOption) : Result unit := Ok tt.
Definition validate_command (c : TansySlashCommand) : Result unit := Ok tt.

(** [count: Optional[int] = Option()], a marker that declares no default
    and no type. *)
Definition bare_marker : ParamInfo :=
  {| pi_name := None; pi_description := "No Description Set";
     pi_default := PyMissing; pi_type := None; pi_converter := None;
     pi_channel_types := None; pi_user_provided_type := false |}.

Definition count_param : SigParameter :=
  {| p_name := "count"; p_kind := POSITIONAL_OR_KEYWORD;
     p_default := DMarker bare_marker; p_annotation := optional_int_anno |}.

(** [qty: int = 5] *)
Definition qty_param : SigParameter :=
  {| p_name := "qty"; p_kind := POSITIONAL_OR_KEYWORD;
     p_default := DValue (PyInt 5); p_annotation := int_anno |}.

Definition qty_signature : Signature :=
  {| sig_parameters := [("qty", qty_param)] |}.

Definition inspect_signature (store : Store) (c : Callable) : Result Signature :=
  Ok qty_signature.

(** A command whose table maps the option [amount] to the argument [qty],
    through the integer converter. *)
Definition amount_entry : TansySlashCommandParameter :=
  {| cp_name := "amount"; cp_argument_name := "qty"; cp_default := PyInt 5;
     cp_type := None; cp_converter := Some (FnOneArg to_int) |}.

Definition command_with (table : dict TansySlashCommandParameter)
  : TansySlashCommand :=
  {| cmd_name := "pay"; cmd_description := "No Description Set";
     group_name := None; group_description := None; sub_cmd_name := None;
     sub_cmd_description := "No Description Set";
     default_member_permissions := None; dm_permission := true;
     scopes := [PyInt 0]; nsfw := false; checks := [];
     callback := Some (Func 0); has_binding := false;
     options := [SlashCommandOption_init "amount" INTEGER];
     parameters := table;
     _inspect_signature := Some qty_signature |}.

Definition pay_command : TansySlashCommand :=
  command_with [("amount", amount_entry)].

(** A command whose table maps the option [a] to the argument [b], without
    a converter. *)
Definition a_to_b : TansySlashCommandParameter :=
  {| cp_name := "a"; cp_argument_name := "b"; cp_default := PyMissing;
     cp_type := None; cp_converter := None |}.

Definition renaming_command : TansySlashCommand :=
  command_with [("a", a_to_b)].

(** A callback that hands back the keyword argument it received under a
    given name, and a host binding that adds nothing. *)
Definition echo (name : string) : PyCallback :=
  fun _ kw => Ok (default PyNone (dict_get kw name)).

Definition call_unbound (self : TansySlashCommand) (cb : PyCallback)
  (args : list Value) (kw : dict Value) : Result Value := cb args kw.


(** The two bytes of the JSON text of an empty object. *)
Definition dumps_empty_object (obj : Value) : Result (list Byte.byte) :=
  Ok [Byte.x7b; Byte.x7d].

Definition no_decoder (c : Codec) (b : list Byte.byte) : Result string :=
  Raise (ValueError "decoder not modelled").

Definition json_dumps_stub (obj : Value) : Result string := Ok "{}".

Definition host_login (token : string) : Coroutine :=
  fun client => (Ok PyNone, client).

(** A client as its constructor leaves it, and one on which the host's own
    [login] has run. *)
Definition fresh_client : HTTPClientObj :=
  {| _HTTPClient__session := None; client_state := PyNone |}.

Definition logged_in_client : HTTPClientObj :=
  {| _HTTPClient__session := Some {| _json_serialize := json_dumps |};
     client_state := PyObj 2 |}.

(** [async def roll(ctx, count: int = Option(default=5))]: the marker is the
    parameter's default, an opaque object to the function itself. *)
Definition marker_five : ParamInfo :=
  {| pi_name := None; pi_description := "How many";
     pi_default := PyInt 5; pi_type := None; pi_converter := None;
     pi_channel_types := None; pi_user_provided_type := false |}.

Definition roll_param : SigParameter :=
  {| p_name := "count"; p_kind := POSITIONAL_OR_KEYWORD;
     p_default := DMarker marker_five; p_annotation := int_anno |}.

Definition roll_signature (store : Store) (c : Callable) : Result Signature :=
  Ok {| sig_parameters := [("count", roll_param)] |}.

Definition roll : FunctionObj :=
  {| __name__ := "roll"; __doc__ := Some "Roll dice."; is_coroutine := true;
     __defaults__ := Some [PyObj 9]; __kwdefaults__ := None;
     __tansy_describe__ := None |}.

Definition roll_command : TansySlashCommand :=
  {| cmd_name := "roll"; cmd_description := "Roll dice.";
     group_name := None; group_description := None; sub_cmd_name := None;
     sub_cmd_description := "No Description Set";
     default_member_permissions := None; dm_permission := true;
     scopes := [PyInt 0]; nsfw := false; checks := [];
     callback := Some (Func 0); has_binding := false;
     options := []; parameters := []; _inspect_signature := None |}.

(** [sorted(iterable, /, *, key=None, reverse=False)]: a builtin, which has
    no code object. *)
Definition sorted_builtin : Routine :=
  {| routine_name := "sorted";
     routine_co_argcount := None;
     routine_signature := Ok [POSITIONAL_ONLY; KEYWORD_ONLY; KEYWORD_ONLY];
     routine_call := fun _ => Ok PyNone |}.

(** [amount: int = Option(type=int, converter=int)]: the class [int] given
    as a converter. *)
Definition int_class_marker : ParamInfo :=
  {| pi_name := None; pi_description := "No Description Set";
     pi_default := PyMissing; pi_type := Some INTEGER;
     pi_converter := Some int_anno; pi_channel_types := None;
     pi_user_provided_type := true |}.

Definition converted_param : SigParameter :=
  {| p_name := "amount"; p_kind := POSITIONAL_OR_KEYWORD;
     p_default := DMarker int_class_marker; p_annotation := int_anno |}.

(** [items: list], an annotation with no option type. *)
Definition list_param : SigParameter :=
  {| p_name := "items"; p_kind := POSITIONAL_OR_KEYWORD;
     p_default := DEmpty; p_annotation := Plain (AOther true "list") |}.



(** A callback on which a permission decorator has left the flag 8. *)
Definition permission_attrs : PermissionAttrs :=
  <[0%nat := Some 8%Z]> (fun _ => None).

(** The constructor's values for the arguments [group] leaves out. *)
Definition class_defaults : TansySlashCommand :=
  {| cmd_name := ""; cmd_description := "No Description Set";
     group_name := None; group_description := Some "No Description Set";
     sub_cmd_name := None; sub_cmd_description := "No Description Set";
     default_member_permissions := None; dm_permission := true;
     scopes := []; nsfw := false; checks := [];
     callback := None; has_binding := false;
     options := []; parameters := []; _inspect_signature := None |}.

(** The command that
    [@tansy_slash_command("admin", description="Administration", scopes=[42],
    default_member_permissions=8, dm_permission=False)] builds from a
    coroutine function without permission flags of its own. *)
Definition decorated_command : TansySlashCommand :=
  stored_fields "admin" "Administration" None
    (Some "No Description Set") None "No Description Set" (Some 8%Z) false
    (Some (Func 0)) [PyInt 42] false [].

(** Stand-ins for the host's part of the constructor: a description of more
    than 100 characters is refused, and the function object 1 carries one
    check. *)
Definition host_validators (fields : TansySlashCommand) : Result unit :=
  if (100 <? String.length (cmd_description fields))%nat
     || (100 <? String.length (sub_cmd_description fields))%nat
  then Raise (ValueError "Description must be between 1 and 100 characters long")
  else Ok tt.

Definition callback_checks (call : Callable) : list Value :=
  match call with
  | Func 1 => [PyObj 6]
  | _ => []
  end.





(** An instance of a class with a [__call__(self, ctx, arg)] method: callable,
    but not a routine. *)
Definition callable_instance : Anno := Plain (AOther true "Parser()").

(** A store with two coroutine functions: [g], documented, at 0 and [f],
    undocumented, at 1. *)
Definition two_function_store : Store :=
  <[1%nat := f_positional]> (store_with g_mixed).

(** A base command that requires the permission flag 8 and carries a check. *)
Definition guarded_command : TansySlashCommand :=
  {| cmd_name := "admin"; cmd_description := "Administration";
     group_name := None; group_description := None; sub_cmd_name := None;
     sub_cmd_description := "No Description Set";
     default_member_permissions := Some 8%Z; dm_permission := false;
     scopes := [PyInt 42]; nsfw := false; checks := [PyObj 5];
     callback := None; has_binding := false;
     options := []; parameters := []; _inspect_signature := None |}.

End Examples.

(** Side conditions on concrete dictionaries. *)
Ltac not_in_list :=
  let H := fresh in
  intros H;
  repeat (apply elem_of_cons in H as [H|H]; [discriminate H|]);
  by apply elem_of_nil in H.

Ltac distinct_keys :=
  unfold dict_keys; cbn;
  repeat (apply NoDup_cons_2; [not_in_list|]);
  apply NoDup_nil_2.

(** * Facts about the model *)

(** ** Results *)

Module ResultFacts.

Lemma bind_Ok {A B : Type} (a : A) (k : A → Result B) : bind (Ok a) k = k a.
Proof. reflexivity. Qed.

Lemma bind_Raise {A B : Type} (e : Exception) (k : A → Result B) :
  bind (Raise e) k = Raise e.
Proof. reflexivity. Qed.

Lemma bind_Ok_inv {A B : Type} (m : Result A) (k : A → Result B) b :
  bind m k = Ok b → ∃ a, m = Ok a ∧ k a = Ok b.
Proof. destruct m as [e|a]; [done|]. intros H. by exists a. Qed.

End ResultFacts.
Import ResultFacts.

(** ** Dictionaries *)

Module DictFacts.
Section DictLemmas.
Context {V : Type}.
Implicit Types (d : dict V) (k : string) (v : V).

Lemma dict_get_set_eq d k v : dict_get (dict_set d k v) k = Some v.
Proof.
  induction d as [|[k' v'] d IH]; simpl.
  - by rewrite decide_True.
  - destruct (decide (k' = k)) as [->|Hne]; simpl.
    + by rewrite decide_True.
    + by rewrite decide_False.
Qed.

Lemma dict_get_set_ne d k k' v :
  k ≠ k' → dict_get (dict_set d k v) k' = dict_get d k'.
Proof.
  intros Hne. induction d as [|[k0 v0] d IH]; simpl.
  - by rewrite decide_False.
  - destruct (decide (k0 = k)) as [->|Hne0]; simpl.
    + by rewrite !decide_False.
    + by rewrite IH.
Qed.

Lemma dict_get_None d k : dict_get d k = None ↔ k ∉ dict_keys d.
Proof.
  unfold dict_keys. induction d as [|[k0 v0] d IH]; simpl.
  - split; [intros _; apply not_elem_of_nil | done].
  - rewrite not_elem_of_cons. destruct (decide (k0 = k)) as [->|Hne].
    + split; [done | intros [? _]; done].
    + rewrite IH. split; [intros ?; split; [congruence | done] | intros [_ ?]; done].
Qed.

Lemma dict_get_Some_elem d k v : dict_get d k = Some v → (k, v) ∈ d.
Proof.
  induction d as [|[k0 v0] d IH]; simpl; [done|].
  destruct (decide (k0 = k)) as [->|Hne].
  - intros [= ->]. apply list_elem_of_here.
  - intros H. apply list_elem_of_further. auto.
Qed.

Lemma dict_keys_set d k v :
  dict_keys (dict_set d k v) =
    if decide (k ∈ dict_keys d) then dict_keys d else dict_keys d ++ [k].
Proof.
  unfold dict_keys. induction d as [|[k0 v0] d IH].
  - destruct (decide (k ∈ ([] : dict V).*1)) as [Hin|_]; [|done].
    by apply elem_of_nil in Hin.
  - destruct (decide (k ∈ ((k0, v0) :: d).*1)) as [Hin|Hnin];
      cbn [dict_set]; destruct (decide (k0 = k)) as [->|Hne]; cbn [fmap list_fmap fst].
    + done.
    + rewrite IH. rewrite decide_True; [done|].
      cbn in Hin. apply elem_of_cons in Hin as [?|?]; [congruence | done].
    + exfalso. apply Hnin. cbn. apply list_elem_of_here.
    + rewrite IH. rewrite decide_False; [done|].
      intros ?. apply Hnin. cbn. by apply list_elem_of_further.
Qed.

(** Writing a fresh key appends the item. *)
Lemma dict_set_fresh d k v : k ∉ dict_keys d → dict_set d k v = d ++ [(k, v)].
Proof.
  unfold dict_keys. induction d as [|[k0 v0] d IH]; simpl; [done|].
  rewrite not_elem_of_cons. intros [Hne Hnin].
  rewrite decide_False; [|congruence]. by rewrite IH.
Qed.

End DictLemmas.

End DictFacts.
Import DictFacts.

(** ** Converter normalisation *)

Module ConverterSpec.
Section Dispatch.
Variable get_from_anno_type : list AnnoObj → AnnoObj.
Variable _get_converter_function : ConverterObj → string → Result ConverterFn.

Local Abbreviation get_converter :=
  (_get_converter get_from_anno_type _get_converter_function).

(** The count the dispatch runs on: [co_argcount] where the routine has a code
    object, the length of its signature otherwise. *)
Lemma num_params_with_code r n :
  routine_co_argcount r = Some n → num_params r = Ok n.
Proof. unfold num_params. by intros ->. Qed.

Lemma num_params_without_code r ps :
  routine_co_argcount r = None → routine_signature r = Ok ps →
  num_params r = Ok (length ps).
Proof. unfold num_params. by intros -> ->. Qed.

(** A failure of [inspect.signature] is passed on. *)
Lemma get_converter_signature_error anno r name e :
  unwrap_annotated get_from_anno_type anno = ARoutine r →
  num_params r = Raise e → get_converter anno name = Raise e.
Proof. unfold _get_converter. by intros -> ->. Qed.

(** C5, as amended.  For a routine (what [inspect.isroutine] accepts) the
    dispatch runs on a count that is the code object's [co_argcount] when
    the routine has a code object, and otherwise the number of all the
    parameters of its signature, whatever their kind.  With the count 2 the
    routine itself is returned; with 1 the result is the two-argument
    wrapper, which drops the context and gives the routine's awaited result
    on the value alone; with 0 and with more than 2 a [ValueError] is raised
    with exactly the two messages of the source.  A failure of
    [inspect.signature] is passed on.  Anything that is neither a converter
    object nor a routine, callable or not, gives [None] without an error,
    and a converter object gives what the host extracts from it. *)
Theorem get_converter_dispatch anno r name :
  unwrap_annotated get_from_anno_type anno = ARoutine r →
  (∀ count,
     routine_co_argcount r = Some count
     ∨ (routine_co_argcount r = None
        ∧ ∃ kinds, routine_signature r = Ok kinds ∧ count = length kinds) →
     match count with
     | 2 => get_converter anno name = Ok (Some (FnRoutine r))
     | 1 =>
         get_converter anno name = Ok (Some (FnOneArg r)) ∧
         ∀ ctx value,
           run_converter (FnOneArg r) ctx value = routine_call r [value]
     | 0 =>
         get_converter anno name =
           Raise (ValueError (routine_name r ++ " for " ++ name
                    ++ " has 0 positional arguments, which is unsupported."))
     | _ =>
         get_converter anno name =
           Raise (ValueError (routine_name r ++ " for " ++ name
                    ++ " has more than 2 positional arguments, which is unsupported."))
     end) ∧
  (∀ e, routine_co_argcount r = None → routine_signature r = Raise e →
        get_converter anno name = Raise e) ∧
  (∀ other callable repr,
     unwrap_annotated get_from_anno_type other = AOther callable repr →
     get_converter other name = Ok None) ∧
  (∀ other c,
     unwrap_annotated get_from_anno_type other = AConverter c →
     get_converter other name =
       match _get_converter_function c name with
       | inl e => Raise e
       | inr f => Ok (Some f)
       end).
Proof.
  intros Hanno. split; [|split; [|split]].
  - intros count Hcount. unfold _get_converter, num_params. rewrite Hanno.
    destruct Hcount as [->|(-> & kinds & -> & ->)]; rewrite !bind_Ok.
    + by destruct count as [|[|[|n]]].
    + by destruct (length kinds) as [|[|[|n]]].
  - intros e Hcode Hsig. unfold _get_converter, num_params.
    by rewrite Hanno, Hcode, Hsig.
  - intros other callable repr Hother. unfold _get_converter.
    by rewrite Hother.
  - intros other c Hother. unfold _get_converter. rewrite Hother.
    by destruct (_get_converter_function c name).
Qed.

End Dispatch.

(** The claim of C5 fails as stated.  The builtin [sorted] has exactly one
    parameter that can be passed by position, yet it is not wrapped: it has
    no code object, its three parameters are all counted, and it is refused
    as having more than 2 positional arguments.  And an object that is
    callable without being a routine gets no converter at all. *)
Lemma one_positional_builtin_refused :
  routine_co_argcount Examples.sorted_builtin = None ∧
  routine_signature Examples.sorted_builtin
  = Ok [POSITIONAL_ONLY; KEYWORD_ONLY; KEYWORD_ONLY] ∧
  positional_parameter_count [POSITIONAL_ONLY; KEYWORD_ONLY; KEYWORD_ONLY]
  = 1%nat ∧
  _get_converter Examples.first_metadata Examples.host_converter_function
    (Plain (ARoutine Examples.sorted_builtin)) "key"
  = Raise (ValueError
             "sorted for key has more than 2 positional arguments, which is unsupported.") ∧
  _get_converter Examples.first_metadata Examples.host_converter_function
    Examples.callable_instance "key"
  = Ok None.
Proof. repeat split. Qed.

Lemma get_converter_dispatch_witness :
  _get_converter Examples.first_metadata Examples.host_converter_function
    (Plain (ARoutine Examples.to_int)) "amount"
  = Ok (Some (FnOneArg Examples.to_int))
  ∧ run_converter (FnOneArg Examples.to_int) (PyObj 0) (PyStr "10") = Ok (PyInt 10).
Proof.
  destruct (get_converter_dispatch Examples.first_metadata
              Examples.host_converter_function
              (Plain (ARoutine Examples.to_int)) Examples.to_int "amount"
              eq_refl) as (Hcount & _).
  destruct (Hcount 1%nat (or_introl eq_refl)) as [Hres Hrun].
  split; [exact Hres | rewrite Hrun; reflexivity].
Defined.

End ConverterSpec.

(** ** The default-overwrite helper *)

Module DefaultsSpec.

(** The helper's rule for one supplied name: it goes to the keyword-only
    collection when its old keyword-only default is truthy or its kind is
    [KEYWORD_ONLY]. *)
Local Abbreviation kw_rule old parameters :=
  (fun kv : string * Value =>
     has_truthy_kwdefault old kv.1 || is_keyword_only parameters kv.1).

Lemma goes_to_kwdefaults_known old parameters name :
  is_Some (dict_get parameters name) →
  goes_to_kwdefaults old parameters name =
    Ok (has_truthy_kwdefault old name || is_keyword_only parameters name).
Proof.
  intros [p Hp]. unfold goes_to_kwdefaults, is_keyword_only. rewrite Hp.
  destruct (has_truthy_kwdefault old name); done.
Qed.

Lemma goes_to_kwdefaults_unknown old parameters name :
  has_truthy_kwdefault old name = false → dict_get parameters name = None →
  goes_to_kwdefaults old parameters name = Raise (KeyError name).
Proof. unfold goes_to_kwdefaults. by intros -> ->. Qed.

(** The loop sends every entry to one of the two collections, in order. *)
Lemma split_defaults_run old parameters items new_defaults new_kwarg_defaults :
  (∀ name, name ∈ items.*1 → is_Some (dict_get parameters name)) →
  split_defaults old parameters items new_defaults new_kwarg_defaults =
    Ok (new_defaults
          ++ (filter (λ kv, kw_rule old parameters kv = false) items).*2,
        foldl (λ acc kv, dict_set acc kv.1 kv.2) new_kwarg_defaults
          (filter (λ kv, kw_rule old parameters kv = true) items)).
Proof.
  revert new_defaults new_kwarg_defaults.
  induction items as [|[name value] items IH]; intros nd nk Hknown.
  - cbn. by rewrite app_nil_r.
  - cbn [split_defaults].
    rewrite goes_to_kwdefaults_known by (apply Hknown; cbn; apply list_elem_of_here).
    rewrite bind_Ok.
    assert (∀ n, n ∈ items.*1 → is_Some (dict_get parameters n)) as Hrest.
    { intros n Hn. apply Hknown. cbn. by apply list_elem_of_further. }
    destruct (has_truthy_kwdefault old name || is_keyword_only parameters name)
      eqn:Hrule.
    + rewrite IH by done.
      rewrite (filter_cons_True (λ kv, kw_rule old parameters kv = true)) by done.
      rewrite (filter_cons_False (λ kv, kw_rule old parameters kv = false))
        by (cbn; congruence).
      done.
    + rewrite IH by done.
      rewrite (filter_cons_False (λ kv, kw_rule old parameters kv = true))
        by (cbn; congruence).
      rewrite (filter_cons_True (λ kv, kw_rule old parameters kv = false)) by done.
      by rewrite <- app_assoc.
Qed.

(** Writing items with distinct fresh keys, one after the other, appends
    them. *)
Lemma foldl_dict_set_fresh (acc items : dict Value) :
  NoDup (dict_keys (acc ++ items)) →
  foldl (λ acc kv, dict_set acc kv.1 kv.2) acc items = acc ++ items.
Proof.
  revert acc. induction items as [|[k v] items IH]; intros acc Hnd.
  - cbn. by rewrite app_nil_r.
  - cbn [foldl]. cbn [fst snd].
    assert (k ∉ dict_keys acc) as Hfresh.
    { unfold dict_keys in *. rewrite fmap_app in Hnd.
      apply list.NoDup_app in Hnd as (_ & Hdisj & _).
      intros Hin. apply (Hdisj k Hin). cbn. apply list_elem_of_here. }
    rewrite dict_set_fresh by done.
    rewrite IH; [by rewrite <- app_assoc|].
    by rewrite <- app_assoc.
Qed.

Lemma dict_keys_filter_NoDup (P : string * Value → Prop)
  `{!∀ kv, Decision (P kv)} (d : dict Value) :
  NoDup (dict_keys d) → NoDup (dict_keys (filter P d)).
Proof.
  unfold dict_keys. induction d as [|kv d IH]; [done|].
  rewrite fmap_cons, list.NoDup_cons. intros [Hnin Hnd].
  destruct (decide (P kv)).
  - rewrite filter_cons_True by done. rewrite fmap_cons.
    apply list.NoDup_cons. split; [|auto].
    intros Hin. apply Hnin. apply list_elem_of_fmap in Hin as (kv' & -> & Hin).
    apply list_elem_of_fmap. exists kv'. split; [done|].
    by apply list_elem_of_filter in Hin as [_ ?].
  - rewrite filter_cons_False by done. auto.
Qed.


Lemma default_dict_or_None (d : dict Value) : default [] (dict_or_None d) = d.
Proof. by destruct d. Qed.

Lemma default_tuple_or_None (l : list Value) : default [] (tuple_or_None l) = l.
Proof. by destruct l. Qed.

(** What one run does: the callable handed back is [func], and the function
    object it resolves to holds the two rebuilt collections. *)
Lemma overwrite_defaults_run store func defaults parameters :
  NoDup (dict_keys defaults) →
  (∀ name, name ∈ dict_keys defaults → is_Some (dict_get parameters name)) →
  let addr := func_to_parse func in
  let old := default [] (__kwdefaults__ (store addr)) in
  _overwrite_defaults store func defaults parameters =
    (Ok func,
     <[addr := set_defaults (store addr)
                 (filter (λ kv, kw_rule old parameters kv = false) defaults).*2
                 (filter (λ kv, kw_rule old parameters kv = true) defaults)]>
       store).
Proof.
  intros Hnd Hknown addr old. unfold _overwrite_defaults.
  assert (func_to_parse (copy_copy func) = addr) as -> by by destruct func.
  fold old. rewrite split_defaults_run by done.
  rewrite foldl_dict_set_fresh by by apply dict_keys_filter_NoDup.
  cbn [app]. by destruct func.
Qed.

Lemma filter_ext_elem {A} (P Q : A → Prop) `{!∀ x, Decision (P x)}
  `{!∀ x, Decision (Q x)} (l : list A) :
  (∀ x, x ∈ l → P x ↔ Q x) → filter P l = filter Q l.
Proof.
  induction l as [|x l IH]; intros Hiff; [done|].
  assert (filter P l = filter Q l) as Hl.
  { apply IH. intros y Hy. apply Hiff. by apply list_elem_of_further. }
  destruct (decide (P x)) as [HP|HP].
  - rewrite (filter_cons_True P) by done.
    rewrite (filter_cons_True Q) by (apply Hiff; [apply list_elem_of_here | done]).
    by rewrite Hl.
  - rewrite (filter_cons_False P) by done.
    rewrite (filter_cons_False Q); [done|].
    intros HQ. apply HP. apply Hiff; [apply list_elem_of_here | done].
Qed.

Lemma has_truthy_kwdefault_member (d : dict Value) name :
  has_truthy_kwdefault d name = true → name ∈ dict_keys d.
Proof.
  unfold has_truthy_kwdefault. destruct (dict_get d name) eqn:Hget; [|done].
  intros _. destruct (decide (name ∈ dict_keys d)) as [|Hnot]; [done|].
  apply dict_get_None in Hnot. congruence.
Qed.

(** Running the helper again on its own result changes nothing further,
    when the old keyword-only defaults belong to keyword-only parameters (as
    they do for a function and its own signature). *)
Lemma overwrite_defaults_twice store func defaults parameters store1 :
  NoDup (dict_keys defaults) →
  (∀ name, name ∈ dict_keys defaults → is_Some (dict_get parameters name)) →
  (∀ name,
     has_truthy_kwdefault
       (default [] (__kwdefaults__ (store (func_to_parse func)))) name = true →
     is_keyword_only parameters name = true) →
  _overwrite_defaults store func defaults parameters = (Ok func, store1) →
  ∃ store2,
    _overwrite_defaults store1 func defaults parameters = (Ok func, store2) ∧
    ∀ addr, store2 addr = store1 addr.
Proof.
  intros Hnd Hknown Hcons Hrun1.
  rewrite overwrite_defaults_run in Hrun1 by done.
  injection Hrun1 as <-.
  set (old := default [] (__kwdefaults__ (store (func_to_parse func)))) in *.
  eexists. split; [by apply overwrite_defaults_run|].
  rewrite fn_lookup_insert. cbn [set_defaults __kwdefaults__].
  rewrite default_dict_or_None.
  set (kw := filter (λ kv : string * Value,
                       has_truthy_kwdefault old kv.1
                       || is_keyword_only parameters kv.1 = true) defaults).
  assert (∀ kv, kv ∈ defaults →
            has_truthy_kwdefault kw kv.1 || is_keyword_only parameters kv.1
            = has_truthy_kwdefault old kv.1 || is_keyword_only parameters kv.1)
    as Hsame.
  { intros [name value] _. cbn [fst].
    destruct (is_keyword_only parameters name) eqn:Hk.
    - by rewrite !orb_true_r.
    - rewrite !orb_false_r.
      destruct (has_truthy_kwdefault old name) eqn:Hold;
        [by rewrite Hcons in Hk|].
      destruct (has_truthy_kwdefault kw name) eqn:Hnew; [|done].
      apply has_truthy_kwdefault_member in Hnew. unfold dict_keys in Hnew.
      apply list_elem_of_fmap in Hnew as ([n v] & Heq & Hin). cbn in Heq. subst n.
      apply list_elem_of_filter in Hin as [Hrule _]. cbn in Hrule.
      by rewrite Hold, Hk in Hrule. }
  rewrite (filter_ext_elem
             (λ kv, has_truthy_kwdefault kw kv.1 || is_keyword_only parameters kv.1 = false)
             (λ kv, has_truthy_kwdefault old kv.1 || is_keyword_only parameters kv.1 = false))
    by (intros kv Hin; by rewrite Hsame).
  rewrite (filter_ext_elem
             (λ kv, has_truthy_kwdefault kw kv.1 || is_keyword_only parameters kv.1 = true)
             (λ kv, has_truthy_kwdefault old kv.1 || is_keyword_only parameters kv.1 = true))
    by (intros kv Hin; by rewrite Hsame).
  fold kw. intros addr.
  destruct (decide (func_to_parse func = addr)) as [<-|Hne].
  - by rewrite !fn_lookup_insert.
  - by rewrite !fn_lookup_insert_ne.
Qed.

(** C3, at a failing input.  For [async def f(ctx, a=1)] and the mapping
    [{"a": 5}], the helper hands back the very function object it was given,
    and that object's own positional defaults have changed from [(1,)] to
    [(5,)]: the original callable is not left unmodified.  The same holds
    for the function inside a partially-applied wrapper, whose pre-bound
    arguments are kept. *)
Theorem overwrite_defaults_mutates_original :
  let store := Examples.store_with Examples.f_positional in
  let parameters := [("a", Examples.plain_param "a" POSITIONAL_OR_KEYWORD)] in
  let run := _overwrite_defaults store (Func 0) [("a", PyInt 5)] parameters in
  let run_partial :=
    _overwrite_defaults store (Partial 0 [PyObj 7] []) [("a", PyInt 5)]
      parameters in
  __defaults__ (store 0%nat) = Some [PyInt 1] ∧
  run.1 = Ok (Func 0) ∧
  __defaults__ (run.2 0%nat) = Some [PyInt 5] ∧
  run_partial.1 = Ok (Partial 0 [PyObj 7] []) ∧
  __defaults__ (run_partial.2 0%nat) = Some [PyInt 5].
Proof. repeat split. Qed.

(** The helper's test for one name, written out. *)
Local Abbreviation code_rule old parameters :=
  (fun kv : string * Value =>
     match dict_get old kv.1 with
     | Some v => truthy v
     | None => false
     end
     || match dict_get parameters kv.1 with
        | Some p => bool_decide (p_kind p = KEYWORD_ONLY)
        | None => false
        end).

Lemma goes_to_kwdefaults_Ok old parameters name b :
  goes_to_kwdefaults old parameters name = Ok b →
  b = has_truthy_kwdefault old name || is_keyword_only parameters name.
Proof.
  unfold goes_to_kwdefaults, is_keyword_only.
  destruct (has_truthy_kwdefault old name); [by intros [= <-]|].
  destruct (dict_get parameters name); [by intros [= <-] | done].
Qed.

(** A run of the loop that comes to its end has sent every entry to one of
    the two collections, in order. *)
Lemma split_defaults_Ok old parameters items nd nk nd' nk' :
  split_defaults old parameters items nd nk = Ok (nd', nk') →
  nd' = nd ++ (filter (λ kv, kw_rule old parameters kv = false) items).*2 ∧
  nk' = foldl (λ acc kv, dict_set acc kv.1 kv.2) nk
          (filter (λ kv, kw_rule old parameters kv = true) items).
Proof.
  revert nd nk. induction items as [|[name value] items IH]; intros nd nk.
  - intros [= <- <-]. cbn. by rewrite app_nil_r.
  - cbn [split_defaults]. intros Hrun.
    apply bind_Ok_inv in Hrun as (kw & Hkw & Hrun).
    apply goes_to_kwdefaults_Ok in Hkw. subst kw.
    destruct (has_truthy_kwdefault old name || is_keyword_only parameters name)
      eqn:Hrule; apply IH in Hrun as [-> ->].
    + rewrite (filter_cons_True (λ kv, kw_rule old parameters kv = true)) by done.
      rewrite (filter_cons_False (λ kv, kw_rule old parameters kv = false))
        by (cbn; congruence).
      done.
    + rewrite (filter_cons_False (λ kv, kw_rule old parameters kv = true))
        by (cbn; congruence).
      rewrite (filter_cons_True (λ kv, kw_rule old parameters kv = false)) by done.
      by rewrite <- app_assoc.
Qed.

(** What a run that returns has done, whatever the names supplied. *)
Lemma overwrite_defaults_Ok store func defaults parameters result store' :
  NoDup (dict_keys defaults) →
  _overwrite_defaults store func defaults parameters = (Ok result, store') →
  let addr := func_to_parse func in
  let old := default [] (__kwdefaults__ (store addr)) in
  result = func ∧
  store' =
    <[addr := set_defaults (store addr)
                (filter (λ kv, kw_rule old parameters kv = false) defaults).*2
                (filter (λ kv, kw_rule old parameters kv = true) defaults)]>
      store.
Proof.
  intros Hnd Hrun addr old. unfold _overwrite_defaults in Hrun.
  assert (func_to_parse (copy_copy func) = addr) as Haddr by by destruct func.
  rewrite Haddr in Hrun. fold old in Hrun.
  destruct (split_defaults old parameters defaults [] []) as [e|[nd nk]]
    eqn:Hsplit; [done|].
  apply split_defaults_Ok in Hsplit as [-> ->].
  rewrite foldl_dict_set_fresh in Hrun by by apply dict_keys_filter_NoDup.
  cbn [app] in Hrun. by destruct func; injection Hrun as <- <-.
Qed.

(** The agreement between the function and the parameter mapping, assumed
    by the classification below, cannot be dropped.  Handed a parameter
    mapping in which [x] is not keyword-only, against a
    function whose keyword-only default of [x] is the falsy [0], the helper
    tests the old default's truth value, not its presence: the new value is
    appended to the positional defaults. *)
Lemma falsy_kwdefault_goes_positional :
  let store := Examples.store_with Examples.h_falsy in
  let run :=
    _overwrite_defaults store (Func 0) [("x", PyInt 5)] Examples.h_parameters in
  dict_get (default [] (__kwdefaults__ (store 0%nat))) "x" = Some (PyInt 0) ∧
  run.1 = Ok (Func 0) ∧
  __kwdefaults__ (run.2 0%nat) = None ∧
  __defaults__ (run.2 0%nat) = Some [PyInt 5].
Proof. repeat split. Qed.



(** C10.  A run that returns has replaced the function's defaults.  The
    positional defaults are exactly the values of the supplied entries that
    the helper's test does not send to the keyword-only collection, in the
    mapping's order; the keyword-only defaults are exactly the supplied
    entries that it does send there; either collection is stored as [None]
    when it is empty.  A name absent from the supplied mapping has no
    keyword-only default left, whatever it had before. *)
Theorem overwrite_defaults_replaces store func defaults parameters
    result store' :
  NoDup (dict_keys defaults) →
  _overwrite_defaults store func defaults parameters = (Ok result, store') →
  let old := default [] (__kwdefaults__ (store (func_to_parse func))) in
  let positional :=
    (filter (λ kv, code_rule old parameters kv = false) defaults).*2 in
  let keyword := filter (λ kv, code_rule old parameters kv = true) defaults in
  __defaults__ (store' (func_to_parse func)) =
    match positional with
    | [] => None
    | _ :: _ => Some positional
    end ∧
  __kwdefaults__ (store' (func_to_parse func)) =
    match keyword with
    | [] => None
    | _ :: _ => Some keyword
    end ∧
  (∀ name, name ∉ dict_keys defaults →
     match __kwdefaults__ (store' (func_to_parse func)) with
     | Some kwdefaults => dict_get kwdefaults name = None
     | None => True
     end).
Proof.
  intros Hnd Hrun old positional keyword.
  apply overwrite_defaults_Ok in Hrun as [_ ->]; [|done].
  unfold Store in *. rewrite fn_lookup_insert.
  cbn [set_defaults __defaults__ __kwdefaults__].
  change (tuple_or_None positional
          = match positional with
            | [] => None
            | _ :: _ => Some positional
            end ∧
          dict_or_None keyword
          = match keyword with
            | [] => None
            | _ :: _ => Some keyword
            end ∧
          (∀ name, name ∉ dict_keys defaults →
             match dict_or_None keyword with
             | Some kwdefaults => dict_get kwdefaults name = None
             | None => True
             end)).
  assert (∀ name, name ∉ dict_keys defaults → dict_get keyword name = None)
    as Hgone.
  { intros name Hnot. apply dict_get_None. unfold dict_keys in *.
    intros Hmem. apply Hnot.
    apply list_elem_of_fmap in Hmem as (kv & -> & Hmem).
    apply list_elem_of_fmap. exists kv. split; [done|].
    by apply list_elem_of_filter in Hmem as [_ ?]. }
  clearbody positional keyword. unfold tuple_or_None, dict_or_None.
  split; [done|]. split; [by destruct keyword|].
  intros name Hnot. specialize (Hgone name Hnot). by destruct keyword.
Qed.

Lemma overwrite_defaults_replaces_witness :
  __defaults__ (Examples.store_with Examples.g_mixed 0%nat) = Some [PyInt 1] ∧
  __kwdefaults__ (Examples.store_with Examples.g_mixed 0%nat)
  = Some [("flag", PyBool true); ("level", PyInt 2)] ∧
  ∃ store',
    _overwrite_defaults (Examples.store_with Examples.g_mixed) (Func 0)
      [("a", PyInt 5); ("flag", PyBool false)] Examples.g_parameters
    = (Ok (Func 0), store') ∧
    __defaults__ (store' 0%nat) = Some [PyInt 5] ∧
    __kwdefaults__ (store' 0%nat) = Some [("flag", PyBool false)].
Proof.
  split; [reflexivity|]. split; [reflexivity|].
  exists (_overwrite_defaults (Examples.store_with Examples.g_mixed) (Func 0)
            [("a", PyInt 5); ("flag", PyBool false)] Examples.g_parameters).2.
  destruct (overwrite_defaults_replaces
              (Examples.store_with Examples.g_mixed) (Func 0)
              [("a", PyInt 5); ("flag", PyBool false)] Examples.g_parameters
              (Func 0)
              (_overwrite_defaults (Examples.store_with Examples.g_mixed)
                 (Func 0) [("a", PyInt 5); ("flag", PyBool false)]
                 Examples.g_parameters).2) as (Hpos & Hkw & _).
  - distinct_keys.
  - reflexivity.
  - split; [reflexivity|]. split; [exact Hpos | exact Hkw].
Defined.

End DefaultsSpec.

(** ** Invocation *)

Module InvocationSpec.

Lemma remap_kwargs_step parameters ctx key value rest acc :
  remap_kwargs parameters ctx ((key, value) :: rest) acc =
    let* v := written_value parameters ctx key value in
    remap_kwargs parameters ctx rest
      (dict_set acc (written_name parameters key) v).
Proof.
  cbn [remap_kwargs]. unfold written_value, written_name.
  by destruct (dict_get parameters key).
Qed.

(** A name no item writes keeps what it held. *)
Lemma remap_kwargs_frame parameters ctx items acc new n :
  remap_kwargs parameters ctx items acc = Ok new →
  (∀ key value, (key, value) ∈ items → written_name parameters key ≠ n) →
  dict_get new n = dict_get acc n.
Proof.
  revert acc. induction items as [|[key value] items IH]; intros acc Hrun Hfree.
  - cbn in Hrun. by injection Hrun as <-.
  - rewrite remap_kwargs_step in Hrun.
    apply bind_Ok_inv in Hrun as (v & _ & Hrun).
    rewrite (IH _ Hrun).
    + apply dict_get_set_ne. apply (Hfree key value), list_elem_of_here.
    + intros k' v' Hin. apply (Hfree k' v'). by apply list_elem_of_further.
Qed.

Lemma remap_kwargs_last_write parameters ctx items acc new i key value :
  remap_kwargs parameters ctx items acc = Ok new →
  items !! i = Some (key, value) →
  (∀ j key' value', i < j → items !! j = Some (key', value') →
     written_name parameters key' ≠ written_name parameters key) →
  ∃ v, written_value parameters ctx key value = Ok v ∧
       dict_get new (written_name parameters key) = Some v.
Proof.
  revert acc i. induction items as [|[k0 v0] items IH]; intros acc i Hrun Hi Hlater.
  - done.
  - rewrite remap_kwargs_step in Hrun.
    apply bind_Ok_inv in Hrun as (v & Hv & Hrun).
    destruct i as [|i].
    + injection Hi as -> ->. exists v. split; [done|].
      rewrite (remap_kwargs_frame _ _ _ _ _ _ Hrun).
      * apply dict_get_set_eq.
      * intros k' v' Hin. apply list_elem_of_lookup in Hin as [j Hj].
        apply (Hlater (S j) k' v'); [lia | done].
    + apply (IH _ i Hrun Hi). intros j k' v' Hlt Hj.
      apply (Hlater (S j) k' v'); [lia | done].
Qed.

Lemma remap_kwargs_total parameters ctx items acc :
  (∀ key value, (key, value) ∈ items →
     ∃ v, written_value parameters ctx key value = Ok v) →
  ∃ new, remap_kwargs parameters ctx items acc = Ok new.
Proof.
  revert acc. induction items as [|[key value] items IH]; intros acc Hok.
  - by eexists.
  - rewrite remap_kwargs_step.
    destruct (Hok key value) as [v ->]; [apply list_elem_of_here|].
    rewrite bind_Ok. apply IH. intros k' v' Hin. apply Hok.
    by apply list_elem_of_further.
Qed.

Lemma remap_kwargs_error parameters ctx key value rest acc e :
  written_value parameters ctx key value = Raise e →
  remap_kwargs parameters ctx ((key, value) :: rest) acc = Raise e.
Proof. intros H. by rewrite remap_kwargs_step, H. Qed.

Section CallCallback.
Variable call_with_binding :
  TansySlashCommand → PyCallback → list Value → dict Value → Result Value.

(** The first converter that raises ends the invocation with its error; the
    callback is not called. *)
Lemma call_callback_error self callback ctx key value rest e :
  parameters self ≠ [] →
  kwargs ctx = (key, value) :: rest →
  written_value (parameters self) (ctx_object ctx) key value = Raise e →
  call_callback call_with_binding self callback ctx = Raise e.
Proof.
  intros Hne Hkw Herr. unfold call_callback.
  assert (dict_truthy (parameters self) = true) as ->
    by by destruct (parameters self).
  cbn [negb]. rewrite Hkw.
  by rewrite (remap_kwargs_error _ _ _ _ _ _ _ Herr).
Qed.

(** C1, as amended.  With an empty parameter table the incoming mapping is
    forwarded to the callback unchanged.  With a non-empty table, and every
    converter returning normally, the callback is invoked through the host's
    binding with a mapping [new_kwargs] such that, for every incoming item
    that no later item writes over (no later key is sent to the same
    name): a key without an entry in the table is passed through under its
    own name with its value unchanged, and a key with an entry appears under
    the entry's argument name, with the entry's converter applied to the
    context and the raw value, or with the raw value when the entry has no
    converter.  No other name is passed. *)
Theorem call_callback_remaps self callback ctx :
  (parameters self = [] →
   call_callback call_with_binding self callback ctx
   = callback [ctx_object ctx] (kwargs ctx)) ∧
  (parameters self ≠ [] →
   (∀ key value param f,
      (key, value) ∈ kwargs ctx →
      dict_get (parameters self) key = Some param →
      cp_converter param = Some f →
      ∃ v, run_converter f (ctx_object ctx) value = Ok v) →
   ∃ new_kwargs,
     call_callback call_with_binding self callback ctx
     = call_with_binding self callback [ctx_object ctx] new_kwargs ∧
     (∀ i key value,
        kwargs ctx !! i = Some (key, value) →
        (∀ j key' value', i < j → kwargs ctx !! j = Some (key', value') →
           written_name (parameters self) key'
           ≠ written_name (parameters self) key) →
        match dict_get (parameters self) key with
        | None => dict_get new_kwargs key = Some value
        | Some param =>
            match cp_converter param with
            | Some f =>
                ∃ converted,
                  run_converter f (ctx_object ctx) value = Ok converted ∧
                  dict_get new_kwargs (cp_argument_name param) = Some converted
            | None => dict_get new_kwargs (cp_argument_name param) = Some value
            end
        end) ∧
     (∀ n, (∀ key, key ∈ dict_keys (kwargs ctx) →
              written_name (parameters self) key ≠ n) →
           dict_get new_kwargs n = None)).
Proof.
  unfold call_callback. split.
  - by intros ->.
  - intros Hne Hconv.
    destruct (parameters self) as [|entry table] eqn:Htable; [done|].
    cbn [dict_truthy negb]. rewrite <- Htable in *. clear Htable Hne.
    destruct (remap_kwargs_total (parameters self) (ctx_object ctx)
                (kwargs ctx) []) as [new Hnew].
    { intros key value Hin. unfold written_value, converted_value.
      destruct (dict_get (parameters self) key) as [param|] eqn:Hp; [|by eexists].
      destruct (cp_converter param) as [f|] eqn:Hf; [|by eexists].
      by apply (Hconv key value param f). }
    exists new. rewrite Hnew, bind_Ok. split; [done|]. split.
    + intros i key value Hi Hlater.
      destruct (remap_kwargs_last_write _ _ _ _ _ _ _ _ Hnew Hi Hlater)
        as (v & Hv & Hget).
      unfold written_value, written_name, converted_value in Hv, Hget.
      destruct (dict_get (parameters self) key) as [param|].
      * destruct (cp_converter param) as [f|]; [by exists v|].
        by injection Hv as <-.
      * by injection Hv as <-.
    + intros n Hfree.
      rewrite (remap_kwargs_frame _ _ _ _ _ n Hnew); [done|].
      intros key value Hin. apply Hfree. unfold dict_keys.
      apply list_elem_of_fmap. by exists (key, value).
Qed.
End CallCallback.

(** The claim of C1 fails as stated: the key [b] has no entry in the table,
    yet the callback does not receive its value [1] under [b], because the
    later key [a] is remapped onto the same name. *)
Lemma passed_through_key_overwritten :
  let ctx := {| ctx_object := PyObj 1;
                kwargs := [("b", PyInt 1); ("a", PyInt 2)] |} in
  dict_get (parameters Examples.renaming_command) "b" = None ∧
  dict_get (kwargs ctx) "b" = Some (PyInt 1) ∧
  remap_kwargs (parameters Examples.renaming_command) (ctx_object ctx)
    (kwargs ctx) [] = Ok [("b", PyInt 2)] ∧
  call_callback Examples.call_unbound Examples.renaming_command
    (Examples.echo "b") ctx = Ok (PyInt 2).
Proof. repeat split. Qed.

Lemma call_callback_remaps_witness :
  call_callback Examples.call_unbound Examples.pay_command (Examples.echo "qty")
    {| ctx_object := PyObj 1; kwargs := [("amount", PyStr "10")] |}
  = Ok (PyInt 10).
Proof.
  destruct (call_callback_remaps Examples.call_unbound Examples.pay_command
              (Examples.echo "qty")
              {| ctx_object := PyObj 1; kwargs := [("amount", PyStr "10")] |})
    as [_ Hremap].
  destruct Hremap as (new_kwargs & Hcall & Hitems & _).
  - discriminate.
  - intros key value param f Hin Hparam Hf.
    apply elem_of_cons in Hin as [[= -> ->]|Hin]; [|by apply elem_of_nil in Hin].
    injection Hparam as <-. injection Hf as <-. by eexists.
  - rewrite Hcall.
    destruct (Hitems 0%nat "amount" (PyStr "10") eq_refl) as (v & Hv & Hget).
    { intros j key' value' Hlt Hj. destruct j; [lia | discriminate]. }
    cbn in Hget. unfold Examples.call_unbound, Examples.echo.
    rewrite Hget. cbn in Hv. by injection Hv as <-.
Defined.

End InvocationSpec.

(** ** Introspection *)

Module IntrospectionSpec.
Section Introspection.
Variable get_from_anno_type : list AnnoObj → AnnoObj.
Variable _get_converter_function : ConverterObj → string → Result ConverterFn.
Variable get_option : Anno → Result OptionType.
Variable is_optional : Anno → bool.
Variable resolve_channel_types : Anno → option (list nat).
Variable generate_option : ParamInfo → SlashCommandOption.
Variable validate_option : SlashCommandOption → Result unit.
Variable validate_command : TansySlashCommand → Result unit.
Variable inspect_signature : Store → Callable → Result Signature.

Local Abbreviation parse_parameter' :=
  (parse_parameter get_from_anno_type _get_converter_function get_option
     is_optional resolve_channel_types generate_option validate_option).

Local Abbreviation parse_parameters' :=
  (_parse_parameters get_from_anno_type _get_converter_function get_option
     is_optional resolve_channel_types generate_option validate_option
     validate_command inspect_signature).

Lemma initial_option_required param option :
  initial_option get_option generate_option param = Ok option →
  marker_of param = None → opt_required option = true.
Proof.
  unfold initial_option. intros H Hm. rewrite Hm in H.
  apply bind_Ok_inv in H as (t & _ & [= <-]). done.
Qed.

Lemma described_option_required describes param option :
  opt_required (described_option describes param option) = opt_required option.
Proof.
  unfold described_option. destruct (dict_get _ _) as [desc|]; [|done].
  by destruct (String.eqb desc "").
Qed.

Lemma typed_option_required param option option' :
  typed_option get_option param option = Ok option' →
  opt_required option' = opt_required option.
Proof.
  unfold typed_option. destruct (opt_type option).
  - by intros [= <-].
  - intros H. by apply bind_Ok_inv in H as (t & _ & [= <-]).
Qed.

Lemma channel_option_required param option :
  opt_required (channel_option resolve_channel_types param option)
  = opt_required option.
Proof.
  unfold channel_option. destruct (marker_of param); [|done].
  by destruct (_ && _).
Qed.

Lemma parse_parameter_default describes param option cp :
  parse_parameter' describes param = Ok (option, cp) →
  ∃ option0,
    (marker_of param = None → opt_required option0 = true) ∧
    cp_default cp = (nullable_rule is_optional param (declared_default param option0)).2 ∧
    opt_required option
    = opt_required (nullable_rule is_optional param (declared_default param option0)).1 ∧
    cp_argument_name cp = p_name param.
Proof.
  unfold parse_parameter. intros H.
  apply bind_Ok_inv in H as (o0 & Hinit & H).
  apply bind_Ok_inv in H as (o1 & Htyped & H).
  apply bind_Ok_inv in H as (conv & _ & H).
  apply bind_Ok_inv in H as ([] & _ & [= <- <-]).
  exists o1. split; [|by rewrite channel_option_required].
  intros Hm. rewrite (typed_option_required _ _ _ Htyped).
  rewrite described_option_required. by eapply initial_option_required.
Qed.

(** C6, as amended.  For every parameter the loop introspects: a marker
    that declares a default gives that default (optional); a marker that
    declares none falls under the annotation rule, giving [None] and a
    non-required option when the annotation is optional and the marker's
    type was not user-supplied, and the no-default sentinel (required)
    otherwise; without a marker, a plain callback default is used and the
    option is marked not required; without any default the annotation rule
    gives [None] and a non-required option for an optional annotation, and
    otherwise the parameter is required with the no-default sentinel. *)
Theorem parse_parameter_precedence describes param option cp :
  parse_parameter' describes param = Ok (option, cp) →
  match p_default param with
  | DMarker info =>
      if decide (pi_default info = PyMissing) then
        if negb (pi_user_provided_type info) && is_optional (p_annotation param)
        then cp_default cp = PyNone ∧ opt_required option = false
        else cp_default cp = PyMissing ∧ optional cp = false
      else cp_default cp = pi_default info ∧ optional cp = true
  | DValue v =>
      opt_required option = false ∧
      if decide (v = PyMissing) then
        if is_optional (p_annotation param)
        then cp_default cp = PyNone
        else cp_default cp = PyMissing
      else cp_default cp = v
  | DEmpty =>
      if is_optional (p_annotation param)
      then cp_default cp = PyNone ∧ opt_required option = false
      else cp_default cp = PyMissing ∧ optional cp = false ∧
           opt_required option = true
  end.
Proof.
  intros H. apply parse_parameter_default in H as (o0 & Hbase & Hd & Hr & _).
  unfold optional. rewrite Hr, Hd. clear Hr Hd.
  unfold nullable_rule, declared_default, no_user_type, marker_of in *.
  destruct (p_default param) as [|info|v]; cbn [fst snd].
  - rewrite bool_decide_true by done. cbn [andb].
    destruct (is_optional _); cbn; [done|]. auto.
  - destruct (decide (pi_default info = PyMissing)) as [->|Hne].
    + rewrite bool_decide_true by done. cbn [andb].
      destruct (negb _ && _); cbn; done.
    + rewrite (bool_decide_false (pi_default info = PyMissing)) by done.
      cbn. split; [done|]. by apply bool_decide_true.
  - destruct (decide (v = PyMissing)) as [->|Hne].
    + rewrite bool_decide_true by done. cbn [andb].
      destruct (is_optional _); cbn; done.
    + rewrite (bool_decide_false (v = PyMissing)) by done. cbn. done.
Qed.

Lemma set_callback_same self : set_callback self (callback self) = self.
Proof. by destruct self. Qed.

Lemma set_callback_twice self c c' :
  set_callback (set_callback self c) c' = set_callback self c'.
Proof. done. Qed.

Lemma overwrite_with_parameters_frame self store :
  (_overwrite_with_parameters self store).2.1
  = set_callback self (callback (_overwrite_with_parameters self store).2.1).
Proof.
  unfold _overwrite_with_parameters.
  destruct (_inspect_signature self) as [sg|]; [|by rewrite set_callback_same].
  destruct (callback self) as [func|] eqn:Hcb;
    [|cbn; by rewrite set_callback_same].
  destruct (_overwrite_defaults _ _ _ _) as [[e|func'] store'];
    cbn; [by rewrite set_callback_same | done].
Qed.

(** C2.  On a command whose parameter mapping is non-empty, a further run
    of the introspection leaves the option list and the parameter mapping
    as they were: the command afterwards differs from the one before in its
    callback only, and the run is the default-overwrite step and nothing
    else. *)
Theorem parse_parameters_rerun self store :
  parameters self ≠ [] →
  let run := parse_parameters' self store in
  options run.2.1 = options self ∧
  parameters run.2.1 = parameters self ∧
  run.2.1 = set_callback self (callback run.2.1) ∧
  (∀ func, callback self = Some func →
     run = _overwrite_with_parameters self store).
Proof.
  intros Hne run.
  assert (run.2.1 = set_callback self (callback run.2.1)) as Hframe.
  { subst run. unfold _parse_parameters.
    destruct (callback self) as [func|] eqn:Hcb;
      [|cbn; by rewrite set_callback_same].
    destruct (parameters self); [done|]. cbn [dict_truthy].
    apply overwrite_with_parameters_frame. }
  split; [by rewrite Hframe|]. split; [by rewrite Hframe|]. split; [done|].
  intros func Hcb. subst run. unfold _parse_parameters. rewrite Hcb.
  by destruct (parameters self).
Qed.
End Introspection.

(** The claim of C6 fails as stated: a marker controls [count], yet the
    operational default is not the marker's declared default (it declares
    none) but [None], by the annotation rule. *)
Lemma marker_without_default_gets_None :
  ∃ option cp,
    parse_parameter Examples.first_metadata Examples.host_converter_function
      Examples.get_option Examples.is_optional Examples.resolve_channel_types
      Examples.generate_option Examples.validate_option [] Examples.count_param
    = Ok (option, cp) ∧
    p_default Examples.count_param = DMarker Examples.bare_marker ∧
    pi_default Examples.bare_marker = PyMissing ∧
    cp_default cp = PyNone ∧
    opt_required option = false.
Proof. do 2 eexists. repeat split. Qed.

Lemma parse_parameter_precedence_witness :
  match parse_parameter Examples.first_metadata Examples.host_converter_function
          Examples.get_option Examples.is_optional
          Examples.resolve_channel_types Examples.generate_option
          Examples.validate_option [] Examples.qty_param with
  | inr (option, cp) => opt_required option = false ∧ cp_default cp = PyInt 5
  | inl _ => False
  end.
Proof.
  destruct (parse_parameter _ _ _ _ _ _ _ _ _) as [e|[option cp]] eqn:Hrun.
  - vm_compute in Hrun. discriminate.
  - apply parse_parameter_precedence in Hrun. exact Hrun.
Defined.

Lemma parse_parameters_rerun_witness :
  let run :=
    _parse_parameters Examples.first_metadata Examples.host_converter_function
      Examples.get_option Examples.is_optional Examples.resolve_channel_types
      Examples.generate_option Examples.validate_option
      Examples.validate_command Examples.inspect_signature
      Examples.pay_command (Examples.store_with Examples.f_positional) in
  options run.2.1 = [SlashCommandOption_init "amount" INTEGER] ∧
  parameters run.2.1 = [("amount", Examples.amount_entry)].
Proof.
  destruct (parse_parameters_rerun Examples.first_metadata
              Examples.host_converter_function Examples.get_option
              Examples.is_optional Examples.resolve_channel_types
              Examples.generate_option Examples.validate_option
              Examples.validate_command Examples.inspect_signature
              Examples.pay_command (Examples.store_with Examples.f_positional))
    as (Hoptions & Hparameters & _).
  - discriminate.
  - split; [exact Hoptions | exact Hparameters].
Defined.

(** A first run on [roll] builds one non-required option and one table
    entry with default 5, and the callback's own default becomes 5. *)
Example introspect_roll :
  let run :=
    _parse_parameters Examples.first_metadata Examples.host_converter_function
      Examples.get_option Examples.is_optional Examples.resolve_channel_types
      Examples.generate_option Examples.validate_option
      Examples.validate_command Examples.roll_signature
      Examples.roll_command (Examples.store_with Examples.roll) in
  run.1 = Ok tt ∧
  options run.2.1 =
    [{| opt_name := Some "count"; opt_type := Some INTEGER;
        opt_description := "How many"; opt_required := false;
        opt_channel_types := None |}] ∧
  parameters run.2.1 =
    [("count", {| cp_name := "count"; cp_argument_name := "count";
                  cp_default := PyInt 5; cp_type := None;
                  cp_converter := None |})] ∧
  callback run.2.1 = Some (Func 0) ∧
  __defaults__ (run.2.2 0%nat) = Some [PyInt 5].
Proof. repeat split. Qed.

(** A parameter that cannot be passed by keyword stops the introspection. *)
Example introspect_positional_only :
  parse_loop Examples.first_metadata Examples.host_converter_function
    Examples.get_option Examples.is_optional Examples.resolve_channel_types
    Examples.generate_option Examples.validate_option []
    [Examples.plain_param "x" POSITIONAL_ONLY] [] []
  = (Raise (ValueError
              "All parameters must be able to be used via keyword arguments."),
     ([], [])).
Proof. reflexivity. Qed.

End IntrospectionSpec.

(** ** Deriving a subcommand *)

Module SubcommandSpec.
Section Wrapper.
Variable partial_doc : option string.
Variable host_validators : TansySlashCommand → Result unit.
Variable callback_checks : Callable → list Value.

Local Abbreviation wrapper' :=
  (wrapper partial_doc host_validators callback_checks).

(** [call.__doc__ or "No Description Set"], written out: the documentation
    string of the function object, or of [functools.partial] for a partial,
    when there is one and it is not empty. *)
Local Abbreviation documented store call :=
  (match match call with
         | Func addr => __doc__ (store addr)
         | Partial _ _ _ => partial_doc
         end with
   | Some doc => if String.eqb doc "" then "No Description Set" else doc
   | None => "No Description Set"
   end).

Lemma doc_or_default_documented store call :
  doc_or_default partial_doc store call = documented store call.
Proof.
  unfold doc_or_default, doc_of, str_or, str_truthy, no_description.
  destruct call as [addr|func args keywords].
  - destruct (__doc__ (store addr)) as [doc|]; [|done].
    by destruct (String.eqb doc "").
  - destruct partial_doc as [doc|]; [|done]. by destruct (String.eqb doc "").
Qed.



End Wrapper.


End SubcommandSpec.

(** ** The transport patch *)

Module TransportSpec.

(** Without the codec the patch raises and changes nothing, whatever else
    the module state holds. *)
Lemma patch_unavailable st :
  OrJsonHTTP st = None →
  patch st = (Raise (ImportError "orjson is not installed."), st).
Proof. unfold patch. by intros ->. Qed.

(** With the codec the assignment stores the constructor the subclass
    inherits, which is the host's own. *)
Lemma patch_available host :
  patch (import_module true host) = (Ok tt, import_module true host).
Proof. unfold patch. cbn. by destruct host. Qed.

(** C8.  When the codec could not be imported at load time, [patch()]
    raises [ImportError] with the message "orjson is not installed." and
    the module state, the host's HTTP-client type in it, is the one before
    the call. *)
Theorem patch_without_codec host :
  OrJsonHTTP (import_module false host) = None ∧
  patch (import_module false host)
  = (Raise (ImportError "orjson is not installed."), import_module false host) ∧
  http_client_type (patch (import_module false host)).2 = host.
Proof. done. Qed.

Section Handler.
Variable orjson_dumps : Value → Result (list Byte.byte).
Variable decode_with : Codec → list Byte.byte → Result string.
Variable json_dumps_fn : Value → Result string.
Variable super_login : string → Coroutine.
Variable no_session_message : string.

(** With a label Python knows, the bytes are handed to that codec. *)
Lemma bytes_decode_utf8 b :
  b ≠ [] → bytes_decode decode_with b "utf-8" = decode_with UTF_8 b.
Proof. by destruct b. Qed.

(** The handler's label is no codec's: every non-empty input raises. *)
Lemma bytes_decode_utf9 b :
  b ≠ [] →
  bytes_decode decode_with b "utf-9" = Raise (LookupError "unknown encoding: utf-9").
Proof. by destruct b. Qed.

(** The handler passes on the encoder's own failure. *)
Lemma orjson_dumps_handler_encoder_error obj e :
  orjson_dumps obj = Raise e →
  orjson_dumps_handler orjson_dumps decode_with obj = Raise e.
Proof. unfold orjson_dumps_handler. by intros ->. Qed.

(** C9, at every input the encoder accepts.  [login] never performs the
    host's login: the coroutine is created and handed back without having
    been run.  On a client that has no session yet, as its constructor
    leaves it, [login] raises [AttributeError] and installs nothing.  On a
    client with a session it does install [orjson_dumps_handler] as the
    session's serializer, but the handler does not return the encoder's
    output decoded as text: the encoded bytes of an object are never empty,
    and on them the handler raises [LookupError], because "utf-9" names no
    codec. *)
Theorem login_installs_failing_handler self token :
  let run := login super_login no_session_message self token in
  (_HTTPClient__session self = None →
   run = (Raise (AttributeError no_session_message), self)) ∧
  (∀ session, _HTTPClient__session self = Some session →
     run.1 = Ok (super_login token) ∧
     client_state run.2 = client_state self ∧
     _HTTPClient__session run.2
     = Some {| _json_serialize := orjson_dumps_handler_fn |}) ∧
  (∀ obj first rest,
     orjson_dumps obj = Ok (first :: rest) →
     call_serializer orjson_dumps decode_with json_dumps_fn
       orjson_dumps_handler_fn obj
     = Raise (LookupError "unknown encoding: utf-9")).
Proof.
  intros run. subst run. unfold login. split; [by intros ->|]. split.
  - by intros session ->.
  - intros obj first rest Henc. cbn [call_serializer].
    unfold orjson_dumps_handler. by rewrite Henc, bind_Ok.
Qed.

End Handler.

Lemma login_installs_failing_handler_witness :
  login Examples.host_login "no session" Examples.fresh_client "token"
  = (Raise (AttributeError "no session"), Examples.fresh_client) ∧
  _HTTPClient__session
    (login Examples.host_login "no session" Examples.logged_in_client "token").2
  = Some {| _json_serialize := orjson_dumps_handler_fn |} ∧
  client_state
    (login Examples.host_login "no session" Examples.logged_in_client "token").2
  = PyObj 2 ∧
  call_serializer Examples.dumps_empty_object Examples.no_decoder
    Examples.json_dumps_stub orjson_dumps_handler_fn (PyObj 3)
  = Raise (LookupError "unknown encoding: utf-9").
Proof.
  destruct (login_installs_failing_handler Examples.dumps_empty_object
              Examples.no_decoder Examples.json_dumps_stub Examples.host_login
              "no session" Examples.fresh_client "token")
    as (Hfresh & _ & _).
  destruct (login_installs_failing_handler Examples.dumps_empty_object
              Examples.no_decoder Examples.json_dumps_stub Examples.host_login
              "no session" Examples.logged_in_client "token")
    as (_ & Hsession & Hraise).
  destruct (Hsession _ eq_refl) as (_ & Hstate & Hinstalled).
  split; [exact (Hfresh eq_refl)|]. split; [exact Hinstalled|].
  split; [exact Hstate|].
  exact (Hraise (PyObj 3) Byte.x7b [Byte.x7d] eq_refl).
Defined.

End TransportSpec.

(** * Further properties of the code *)

(** ** The default-overwrite helper, beyond its defaults *)

Module DefaultsExtra.

(** The loop stops at the first name it cannot classify. *)
Lemma split_defaults_unknown old parameters pre name value rest nd nk :
  (∀ n, n ∈ pre.*1 → is_Some (dict_get parameters n)) →
  has_truthy_kwdefault old name = false →
  dict_get parameters name = None →
  split_defaults old parameters (pre ++ (name, value) :: rest) nd nk
  = Raise (KeyError name).
Proof.
  revert nd nk. induction pre as [|[n v] pre IH]; intros nd nk Hpre Hold Hnone.
  - cbn [app split_defaults].
    by rewrite (DefaultsSpec.goes_to_kwdefaults_unknown _ _ _ Hold Hnone).
  - cbn [app split_defaults].
    rewrite DefaultsSpec.goes_to_kwdefaults_known
      by (apply Hpre; cbn; apply list_elem_of_here).
    rewrite bind_Ok.
    assert (∀ m, m ∈ pre.*1 → is_Some (dict_get parameters m)) as Hrest.
    { intros m Hm. apply Hpre. cbn. by apply list_elem_of_further. }
    destruct (_ || _); by apply IH.
Qed.

(** X1.  When a supplied name is not a key of [parameters] and has no
    truthy old keyword-only default, while every name before it is a key of
    [parameters], the helper raises [KeyError] for that name and the store
    is the one before the call: nothing has been assigned. *)
Theorem overwrite_defaults_missing_name store func pre name value rest parameters :
  (∀ n, n ∈ dict_keys pre → is_Some (dict_get parameters n)) →
  has_truthy_kwdefault
    (default [] (__kwdefaults__ (store (func_to_parse func)))) name = false →
  dict_get parameters name = None →
  _overwrite_defaults store func (pre ++ (name, value) :: rest) parameters
  = (Raise (KeyError name), store).
Proof.
  intros Hpre Hold Hnone. unfold _overwrite_defaults.
  assert (func_to_parse (copy_copy func) = func_to_parse func) as ->
    by by destruct func.
  by rewrite (split_defaults_unknown _ _ _ _ _ _ _ _ Hpre Hold Hnone).
Qed.

Lemma overwrite_defaults_missing_name_witness :
  _overwrite_defaults (Examples.store_with Examples.g_mixed) (Func 0)
    [("a", PyInt 5); ("zzz", PyInt 1); ("flag", PyBool false)]
    Examples.g_parameters
  = (Raise (KeyError "zzz"), Examples.store_with Examples.g_mixed).
Proof.
  apply (overwrite_defaults_missing_name
           (Examples.store_with Examples.g_mixed) (Func 0) [("a", PyInt 5)]
           "zzz" (PyInt 1) [("flag", PyBool false)] Examples.g_parameters).
  - intros n Hin. apply elem_of_cons in Hin as [->|Hin]; [by eexists|].
    by apply elem_of_nil in Hin.
  - reflexivity.
  - reflexivity.
Defined.

(** X2.  Whatever its outcome, the helper touches one function object only,
    the one [func] resolves to, and of that object only the two default
    collections: every other object of the store, and the function's name,
    documentation string, coroutine flag and description table, are as
    before.  When it succeeds, the callable it returns is [func]: the
    function itself, or a partial of the same function with the same
    pre-bound arguments. *)
Theorem overwrite_defaults_frame store func defaults parameters :
  let run := _overwrite_defaults store func defaults parameters in
  (∀ addr, addr ≠ func_to_parse func → run.2 addr = store addr) ∧
  __name__ (run.2 (func_to_parse func)) = __name__ (store (func_to_parse func)) ∧
  __doc__ (run.2 (func_to_parse func)) = __doc__ (store (func_to_parse func)) ∧
  is_coroutine (run.2 (func_to_parse func))
  = is_coroutine (store (func_to_parse func)) ∧
  __tansy_describe__ (run.2 (func_to_parse func))
  = __tansy_describe__ (store (func_to_parse func)) ∧
  (∀ result, run.1 = Ok result → result = func).
Proof.
  intros run. subst run. unfold _overwrite_defaults.
  assert (func_to_parse (copy_copy func) = func_to_parse func) as ->
    by by destruct func.
  destruct (split_defaults _ _ _ _ _) as [e|[nd nk]]; [done|].
  destruct func as [addr|addr args keywords];
    cbv zeta; cbn [copy_copy func_to_parse fst snd]; unfold Store in *.
  all: (split; [intros a Hne; by apply fn_lookup_insert_ne|]);
    rewrite fn_lookup_insert; repeat split; try done; by intros result [= <-].
Qed.

(** X3.  On success no supplied default is lost or duplicated: the sizes of
    the two rebuilt collections add up to the size of the mapping, and every
    supplied value is in the positional defaults or sits under its own name
    in the keyword-only defaults. *)
Theorem overwrite_defaults_conserves store func defaults parameters store' :
  NoDup (dict_keys defaults) →
  (∀ name, name ∈ dict_keys defaults → is_Some (dict_get parameters name)) →
  _overwrite_defaults store func defaults parameters = (Ok func, store') →
  length (default [] (__defaults__ (store' (func_to_parse func))))
  + length (default [] (__kwdefaults__ (store' (func_to_parse func))))
  = length defaults ∧
  (∀ name value, (name, value) ∈ defaults →
     value ∈ default [] (__defaults__ (store' (func_to_parse func)))
     ∨ (name, value) ∈ default [] (__kwdefaults__ (store' (func_to_parse func)))).
Proof.
  intros Hnd Hknown Hrun.
  rewrite DefaultsSpec.overwrite_defaults_run in Hrun by done.
  injection Hrun as <-. unfold Store in *. rewrite fn_lookup_insert.
  cbn [set_defaults __defaults__ __kwdefaults__].
  rewrite DefaultsSpec.default_dict_or_None, DefaultsSpec.default_tuple_or_None.
  set (old := default [] (__kwdefaults__ (store (func_to_parse func)))).
  split.
  - rewrite length_fmap. clear Hnd Hknown.
    induction defaults as [|kv defaults IH]; [done|].
    destruct (has_truthy_kwdefault old kv.1 || is_keyword_only parameters kv.1)
      eqn:Hrule.
    + rewrite (filter_cons_False (λ kv, _ = false)) by congruence.
      rewrite (filter_cons_True (λ kv, _ = true)) by done.
      cbn [length]. lia.
    + rewrite (filter_cons_True (λ kv, _ = false)) by done.
      rewrite (filter_cons_False (λ kv, _ = true)) by congruence.
      cbn [length]. lia.
  - intros name value Hin.
    destruct (has_truthy_kwdefault old name || is_keyword_only parameters name)
      eqn:Hrule.
    + right. apply list_elem_of_filter. by split.
    + left. apply list_elem_of_fmap. exists (name, value). split; [done|].
      apply list_elem_of_filter. by split.
Qed.

Lemma overwrite_defaults_conserves_witness :
  length (default []
            (__defaults__
               ((_overwrite_defaults (Examples.store_with Examples.g_mixed)
                   (Func 0) [("a", PyInt 5); ("flag", PyBool false)]
                   Examples.g_parameters).2 0%nat)))
  + length (default []
              (__kwdefaults__
                 ((_overwrite_defaults (Examples.store_with Examples.g_mixed)
                     (Func 0) [("a", PyInt 5); ("flag", PyBool false)]
                     Examples.g_parameters).2 0%nat)))
  = 2%nat.
Proof.
  destruct (overwrite_defaults_conserves
              (Examples.store_with Examples.g_mixed) (Func 0)
              [("a", PyInt 5); ("flag", PyBool false)] Examples.g_parameters
              (_overwrite_defaults (Examples.store_with Examples.g_mixed)
                 (Func 0) [("a", PyInt 5); ("flag", PyBool false)]
                 Examples.g_parameters).2) as [Hlen _].
  - distinct_keys.
  - intros name Hin.
    apply elem_of_cons in Hin as [->|Hin]; [by eexists|].
    apply elem_of_cons in Hin as [->|Hin]; [by eexists|].
    by apply elem_of_nil in Hin.
  - reflexivity.
  - exact Hlen.
Defined.

(** X4.  With an empty mapping the helper succeeds whatever [parameters]
    holds, and strips the function of every default it had: both
    collections are [None] afterwards. *)
Theorem overwrite_defaults_empty store func parameters :
  let run := _overwrite_defaults store func [] parameters in
  run.1 = Ok func ∧
  __defaults__ (run.2 (func_to_parse func)) = None ∧
  __kwdefaults__ (run.2 (func_to_parse func)) = None.
Proof.
  destruct func as [addr|addr args keywords]; cbv zeta.
  all: cbn -[insert]; unfold Store in *; by rewrite fn_lookup_insert.
Qed.

(** X5.  Running the helper a second time with the same arguments, on the
    store its first run left, succeeds and changes nothing further,
    provided the old keyword-only defaults belong to keyword-only parameters
    (as they do for a function and its own signature). *)
Theorem overwrite_defaults_idempotent store func defaults parameters store1 :
  NoDup (dict_keys defaults) →
  (∀ name, name ∈ dict_keys defaults → is_Some (dict_get parameters name)) →
  (∀ name,
     has_truthy_kwdefault
       (default [] (__kwdefaults__ (store (func_to_parse func)))) name = true →
     is_keyword_only parameters name = true) →
  _overwrite_defaults store func defaults parameters = (Ok func, store1) →
  ∃ store2,
    _overwrite_defaults store1 func defaults parameters = (Ok func, store2) ∧
    ∀ addr, store2 addr = store1 addr.
Proof. apply DefaultsSpec.overwrite_defaults_twice. Qed.

Lemma overwrite_defaults_idempotent_witness :
  ∃ store2,
    _overwrite_defaults
      (_overwrite_defaults (Examples.store_with Examples.g_mixed) (Func 0)
         [("a", PyInt 5); ("flag", PyBool false)] Examples.g_parameters).2
      (Func 0) [("a", PyInt 5); ("flag", PyBool false)] Examples.g_parameters
    = (Ok (Func 0), store2) ∧
    ∀ addr,
      store2 addr
      = (_overwrite_defaults (Examples.store_with Examples.g_mixed) (Func 0)
           [("a", PyInt 5); ("flag", PyBool false)] Examples.g_parameters).2
          addr.
Proof.
  apply (overwrite_defaults_idempotent
           (Examples.store_with Examples.g_mixed) (Func 0)
           [("a", PyInt 5); ("flag", PyBool false)] Examples.g_parameters).
  - distinct_keys.
  - intros name Hin.
    apply elem_of_cons in Hin as [->|Hin]; [by eexists|].
    apply elem_of_cons in Hin as [->|Hin]; [by eexists|].
    by apply elem_of_nil in Hin.
  - intros name Hin. apply DefaultsSpec.has_truthy_kwdefault_member in Hin.
    apply elem_of_cons in Hin as [->|Hin]; [done|].
    apply elem_of_cons in Hin as [->|Hin]; [done|].
    by apply elem_of_nil in Hin.
  - reflexivity.
Defined.

Lemma dict_set_values (d : dict Value) k v x :
  x ∈ (dict_set d k v).*2 → x = v ∨ x ∈ d.*2.
Proof.
  induction d as [|[k0 v0] d IH]; cbn.
  - intros Hin. apply list_elem_of_singleton in Hin. by left.
  - destruct (decide (k0 = k)) as [->|Hne]; cbn.
    + intros Hin. apply elem_of_cons in Hin as [->|Hin]; [by left|].
      right. by apply list_elem_of_further.
    + intros Hin. apply elem_of_cons in Hin as [->|Hin].
      * right. apply list_elem_of_here.
      * destruct (IH Hin) as [->|Hd]; [by left|].
        right. by apply list_elem_of_further.
Qed.

Lemma dict_of_items_values (items acc : dict Value) x :
  x ∈ (foldl (λ acc kv, dict_set acc kv.1 kv.2) acc items).*2 →
  x ∈ acc.*2 ∨ x ∈ items.*2.
Proof.
  revert acc. induction items as [|[k v] items IH]; intros acc; cbn.
  - by left.
  - intros Hin. destruct (IH _ Hin) as [Hacc|Hitems].
    + apply dict_set_values in Hacc as [->|Hacc]; [|by left].
      right. apply list_elem_of_here.
    + right. by apply list_elem_of_further.
Qed.

Lemma split_defaults_values old parameters items nd nk nd' nk' :
  split_defaults old parameters items nd nk = Ok (nd', nk') →
  (∀ x, x ∈ nd' → x ∈ nd ∨ x ∈ items.*2) ∧
  (∀ x, x ∈ nk'.*2 → x ∈ nk.*2 ∨ x ∈ items.*2).
Proof.
  revert nd nk. induction items as [|[name value] items IH]; intros nd nk.
  - intros [= <- <-]. split; intros x Hx; by left.
  - cbn [split_defaults]. intros Hrun.
    apply bind_Ok_inv in Hrun as (kw & _ & Hrun).
    destruct kw; apply IH in Hrun as [Hpos Hkw]; split; intros x Hx.
    + destruct (Hpos x Hx) as [?|?]; [by left|].
      right. cbn. by apply list_elem_of_further.
    + destruct (Hkw x Hx) as [Hin|?].
      * apply dict_set_values in Hin as [->|?]; [|by left].
        right. cbn. apply list_elem_of_here.
      * right. cbn. by apply list_elem_of_further.
    + destruct (Hpos x Hx) as [Hin|?].
      * apply elem_of_app in Hin as [?|Hin]; [by left|].
        apply list_elem_of_singleton in Hin as ->. right. cbn.
        apply list_elem_of_here.
      * right. cbn. by apply list_elem_of_further.
    + destruct (Hkw x Hx) as [?|?]; [by left|].
      right. cbn. by apply list_elem_of_further.
Qed.

Lemma parameter_defaults_values table x :
  x ∈ (parameter_defaults table).*2 → x ≠ PyMissing.
Proof.
  unfold parameter_defaults, dict_of_items. intros Hin.
  apply dict_of_items_values in Hin as [Hin|Hin]; [by apply elem_of_nil in Hin|].
  apply list_elem_of_fmap in Hin as ([k v] & -> & Hin).
  apply list_elem_of_fmap in Hin as (cp & [= -> ->] & Hin).
  apply list_elem_of_filter in Hin as [Hopt _].
  unfold optional in Hopt. by apply bool_decide_eq_true in Hopt.
Qed.

(** X6.  When [_overwrite_with_parameters] succeeds, the callback is still
    the same callable and the no-default sentinel is not among its
    defaults, positional or keyword-only: only parameters that have a
    default contribute one. *)
Theorem overwrite_with_parameters_no_sentinel self store self' store' func :
  callback self = Some func →
  _overwrite_with_parameters self store = (Ok tt, (self', store')) →
  callback self' = Some func ∧
  (∀ x, x ∈ default [] (__defaults__ (store' (func_to_parse func))) →
        x ≠ PyMissing) ∧
  (∀ name x,
     dict_get (default [] (__kwdefaults__ (store' (func_to_parse func)))) name
     = Some x → x ≠ PyMissing).
Proof.
  intros Hcb. unfold _overwrite_with_parameters. rewrite Hcb.
  destruct (_inspect_signature self) as [sig|]; [|done].
  unfold _overwrite_defaults.
  assert (func_to_parse (copy_copy func) = func_to_parse func) as ->
    by by destruct func.
  destruct (split_defaults _ _ _ _ _) as [e|[nd nk]] eqn:Hsplit; [done|].
  apply split_defaults_values in Hsplit as [Hpos Hkw].
  assert (∀ x, x ∈ nd → x ≠ PyMissing) as Hnd.
  { intros x Hx. destruct (Hpos x Hx) as [Hin|Hin];
      [by apply elem_of_nil in Hin | by apply parameter_defaults_values in Hin]. }
  assert (∀ x, x ∈ nk.*2 → x ≠ PyMissing) as Hnk.
  { intros x Hx. destruct (Hkw x Hx) as [Hin|Hin];
      [by apply elem_of_nil in Hin | by apply parameter_defaults_values in Hin]. }
  destruct func as [addr|addr args keywords]; cbv zeta;
    cbn [copy_copy func_to_parse]; intros [= <- <-]; unfold Store in *;
    rewrite fn_lookup_insert; cbn [set_defaults __defaults__ __kwdefaults__];
    rewrite DefaultsSpec.default_dict_or_None,
      DefaultsSpec.default_tuple_or_None;
    (split; [done|]); (split; [done|]);
    intros name x Hget; apply Hnk; apply dict_get_Some_elem in Hget;
    apply list_elem_of_fmap; by exists (name, x).
Qed.

Lemma overwrite_with_parameters_no_sentinel_witness :
  callback
    (_overwrite_with_parameters Examples.pay_command
       (Examples.store_with Examples.f_positional)).2.1
  = Some (Func 0) ∧
  __defaults__
    ((_overwrite_with_parameters Examples.pay_command
        (Examples.store_with Examples.f_positional)).2.2 0%nat)
  = Some [PyInt 5].
Proof.
  destruct (overwrite_with_parameters_no_sentinel Examples.pay_command
              (Examples.store_with Examples.f_positional)
              (_overwrite_with_parameters Examples.pay_command
                 (Examples.store_with Examples.f_positional)).2.1
              (_overwrite_with_parameters Examples.pay_command
                 (Examples.store_with Examples.f_positional)).2.2
              (Func 0) eq_refl eq_refl) as (Hcb & _ & _).
  split; [exact Hcb | reflexivity].
Defined.

End DefaultsExtra.

(** ** Invocation, beyond single keys *)

Module InvocationExtra.

Lemma remap_kwargs_first_error parameters ctx pre key value rest acc e :
  (∀ k v, (k, v) ∈ pre → ∃ v', written_value parameters ctx k v = Ok v') →
  written_value parameters ctx key value = Raise e →
  remap_kwargs parameters ctx (pre ++ (key, value) :: rest) acc = Raise e.
Proof.
  revert acc. induction pre as [|[k v] pre IH]; intros acc Hpre Herr.
  - cbn [app]. by rewrite InvocationSpec.remap_kwargs_step, Herr.
  - cbn [app]. rewrite InvocationSpec.remap_kwargs_step.
    destruct (Hpre k v) as [v' ->]; [apply list_elem_of_here|].
    rewrite bind_Ok. apply IH; [|done].
    intros k' v0 Hin. apply Hpre. by apply list_elem_of_further.
Qed.

Lemma remap_kwargs_distinct parameters ctx items acc :
  NoDup (dict_keys acc ++ (written_name parameters <$> items.*1)) →
  (∀ k v, (k, v) ∈ items → ∃ v', written_value parameters ctx k v = Ok v') →
  ∃ new,
    remap_kwargs parameters ctx items acc = Ok (acc ++ new) ∧
    dict_keys new = written_name parameters <$> items.*1 ∧
    Forall2 (λ kv v', written_value parameters ctx kv.1 kv.2 = Ok v')
      items new.*2.
Proof.
  revert acc. induction items as [|[k v] items IH]; intros acc Hnd Hok.
  - exists []. rewrite app_nil_r. by repeat split.
  - rewrite InvocationSpec.remap_kwargs_step.
    destruct (Hok k v) as [v' Hv]; [apply list_elem_of_here|].
    rewrite Hv, bind_Ok.
    assert (written_name parameters k ∉ dict_keys acc) as Hfresh.
    { apply list.NoDup_app in Hnd as (_ & Hdisj & _).
      intros Hin. apply (Hdisj _ Hin). cbn. apply list_elem_of_here. }
    rewrite dict_set_fresh by done.
    destruct (IH (acc ++ [(written_name parameters k, v')])) as (new & Hrun & Hkeys & Hvals).
    { unfold dict_keys in *. rewrite fmap_app. cbn. rewrite <- app_assoc. done. }
    { intros k' v0 Hin. apply Hok. by apply list_elem_of_further. }
    exists ((written_name parameters k, v') :: new).
    rewrite Hrun, <- app_assoc. split; [done|]. split.
    + unfold dict_keys in *. cbn. by rewrite Hkeys.
    + cbn. by constructor.
Qed.

Section CallCallback.
Variable call_with_binding :
  TansySlashCommand → PyCallback → list Value → dict Value → Result Value.

(** X7.  Converters run in the order of the incoming mapping, and the first
    one that raises ends the invocation: when every item before it converts
    and its own conversion raises [e], [call_callback] raises [e], whatever
    the callback and the later items are. *)
Theorem call_callback_first_error self callback ctx pre key value rest e :
  parameters self ≠ [] →
  kwargs ctx = pre ++ (key, value) :: rest →
  (∀ k v, (k, v) ∈ pre →
     ∃ v', written_value (parameters self) (ctx_object ctx) k v = Ok v') →
  written_value (parameters self) (ctx_object ctx) key value = Raise e →
  call_callback call_with_binding self callback ctx = Raise e.
Proof.
  intros Hne Hkw Hpre Herr. unfold call_callback.
  assert (dict_truthy (parameters self) = true) as ->
    by by destruct (parameters self).
  cbn [negb]. rewrite Hkw.
  by rewrite (remap_kwargs_first_error _ _ _ _ _ _ _ _ Hpre Herr).
Qed.

(** X8.  When the incoming keys are written under pairwise distinct names
    and every converter returns, the callback receives exactly one keyword
    argument per incoming item, in the incoming order: the names are the
    written names of the keys and the values the converted values. *)
Theorem call_callback_distinct_names self callback ctx :
  parameters self ≠ [] →
  NoDup (written_name (parameters self) <$> dict_keys (kwargs ctx)) →
  (∀ k v, (k, v) ∈ kwargs ctx →
     ∃ v', written_value (parameters self) (ctx_object ctx) k v = Ok v') →
  ∃ new_kwargs,
    call_callback call_with_binding self callback ctx
    = call_with_binding self callback [ctx_object ctx] new_kwargs ∧
    dict_keys new_kwargs
    = written_name (parameters self) <$> dict_keys (kwargs ctx) ∧
    Forall2
      (λ kv v', written_value (parameters self) (ctx_object ctx) kv.1 kv.2
                = Ok v')
      (kwargs ctx) (dict_values new_kwargs).
Proof.
  intros Hne Hnd Hok. unfold call_callback.
  assert (dict_truthy (parameters self) = true) as ->
    by by destruct (parameters self).
  cbn [negb].
  destruct (remap_kwargs_distinct (parameters self) (ctx_object ctx)
              (kwargs ctx) []) as (new & Hrun & Hkeys & Hvals); [done..|].
  exists new. rewrite Hrun, bind_Ok. by repeat split.
Qed.

End CallCallback.

Lemma call_callback_first_error_witness :
  call_callback Examples.call_unbound Examples.pay_command (Examples.echo "qty")
    {| ctx_object := PyObj 1;
       kwargs := [("note", PyStr "hi"); ("amount", PyStr "ten");
                  ("later", PyInt 1)] |}
  = Raise (ValueError "invalid literal for int() with base 10").
Proof.
  apply (call_callback_first_error Examples.call_unbound Examples.pay_command
           (Examples.echo "qty")
           {| ctx_object := PyObj 1;
              kwargs := [("note", PyStr "hi"); ("amount", PyStr "ten");
                         ("later", PyInt 1)] |}
           [("note", PyStr "hi")] "amount" (PyStr "ten") [("later", PyInt 1)]).
  - discriminate.
  - reflexivity.
  - intros k v Hin. apply elem_of_cons in Hin as [[= -> ->]|Hin]; [by eexists|].
    by apply elem_of_nil in Hin.
  - reflexivity.
Defined.

Lemma call_callback_distinct_names_witness :
  ∃ new_kwargs,
    call_callback Examples.call_unbound Examples.pay_command
      (Examples.echo "qty")
      {| ctx_object := PyObj 1;
         kwargs := [("note", PyStr "hi"); ("amount", PyStr "10")] |}
    = Examples.call_unbound Examples.pay_command (Examples.echo "qty")
        [PyObj 1] new_kwargs ∧
    dict_keys new_kwargs = ["note"; "qty"] ∧
    Forall2
      (λ kv v', written_value (parameters Examples.pay_command) (PyObj 1)
                  kv.1 kv.2 = Ok v')
      [("note", PyStr "hi"); ("amount", PyStr "10")] (dict_values new_kwargs).
Proof.
  apply (call_callback_distinct_names Examples.call_unbound
           Examples.pay_command (Examples.echo "qty")
           {| ctx_object := PyObj 1;
              kwargs := [("note", PyStr "hi"); ("amount", PyStr "10")] |}).
  - discriminate.
  - cbn. repeat (apply NoDup_cons_2; [not_in_list|]). apply NoDup_nil_2.
  - intros k v Hin. apply elem_of_cons in Hin as [[= -> ->]|Hin]; [by eexists|].
    apply elem_of_cons in Hin as [[= -> ->]|Hin]; [by eexists|].
    by apply elem_of_nil in Hin.
Defined.

End InvocationExtra.

(** ** Introspection, beyond one parameter's default *)

Module IntrospectionExtra.

Lemma dict_set_elem {V} (d : dict V) k v entry :
  entry ∈ dict_set d k v → entry = (k, v) ∨ entry ∈ d.
Proof.
  induction d as [|[k0 v0] d IH]; cbn.
  - intros Hin. apply list_elem_of_singleton in Hin. by left.
  - destruct (decide (k0 = k)) as [->|Hne].
    + intros Hin. apply elem_of_cons in Hin as [->|Hin]; [by left|].
      right. by apply list_elem_of_further.
    + intros Hin. apply elem_of_cons in Hin as [->|Hin].
      * right. apply list_elem_of_here.
      * destruct (IH Hin) as [->|Hd]; [by left|].
        right. by apply list_elem_of_further.
Qed.

Section Introspection.
Variable get_from_anno_type : list AnnoObj → AnnoObj.
Variable _get_converter_function : ConverterObj → string → Result ConverterFn.
Variable get_option : Anno → Result OptionType.
Variable is_optional : Anno → bool.
Variable resolve_channel_types : Anno → option (list nat).
Variable generate_option : ParamInfo → SlashCommandOption.
Variable validate_option : SlashCommandOption → Result unit.
Variable validate_command : TansySlashCommand → Result unit.
Variable inspect_signature : Store → Callable → Result Signature.

Local Abbreviation parse_parameter' :=
  (parse_parameter get_from_anno_type _get_converter_function get_option
     is_optional resolve_channel_types generate_option validate_option).
Local Abbreviation parse_loop' :=
  (parse_loop get_from_anno_type _get_converter_function get_option
     is_optional resolve_channel_types generate_option validate_option).
Local Abbreviation parse_parameters' :=
  (_parse_parameters get_from_anno_type _get_converter_function get_option
     is_optional resolve_channel_types generate_option validate_option
     validate_command inspect_signature).

Local Abbreviation get_converter :=
  (_get_converter get_from_anno_type _get_converter_function).

(** What the loop keeps true of the options and the table it builds: every
    option has a name with a table entry, and every table entry is filed
    under its own name, records no type, has an option of its name, and
    names a parameter of the signature that can be passed by keyword. *)
Local Abbreviation loop_invariant all options table :=
  ((∀ o : SlashCommandOption, o ∈ options →
      ∃ name, opt_name o = Some name ∧ is_Some (dict_get table name)) ∧
   (∀ key (cp : TansySlashCommandParameter), (key, cp) ∈ table%list →
      key = cp_name cp ∧
      cp_type cp = None ∧
      (∃ o : SlashCommandOption, o ∈ options ∧ opt_name o = Some key) ∧
      (∃ p : SigParameter, p ∈ all ∧ cp_argument_name cp = p_name p ∧
         (p_kind p = POSITIONAL_OR_KEYWORD ∨ p_kind p = KEYWORD_ONLY)))).

Lemma described_option_name describes param option :
  opt_name (described_option describes param option)
  = Some (resolved_name param option).
Proof.
  unfold described_option. destruct (dict_get _ _) as [desc|]; [|done].
  by destruct (String.eqb desc "").
Qed.

Lemma typed_option_name param option option' :
  typed_option get_option param option = Ok option' →
  opt_name option' = opt_name option.
Proof.
  unfold typed_option. destruct (opt_type option).
  - by intros [= <-].
  - intros H. by apply bind_Ok_inv in H as (t & _ & [= <-]).
Qed.

Lemma nullable_rule_name param state :
  opt_name (nullable_rule is_optional param state).1 = opt_name state.1.
Proof. unfold nullable_rule. by destruct (_ && _). Qed.

Lemma declared_default_name param option :
  opt_name (declared_default param option).1 = opt_name option.
Proof. unfold declared_default. by destruct (p_default param). Qed.

Lemma channel_option_name param option :
  opt_name (channel_option resolve_channel_types param option) = opt_name option.
Proof.
  unfold channel_option. destruct (marker_of param); [|done].
  by destruct (_ && _).
Qed.

(** What one parsed parameter looks like. *)
Lemma parse_parameter_entry describes param option cp :
  parse_parameter' describes param = Ok (option, cp) →
  opt_name option = Some (cp_name cp) ∧
  cp_argument_name cp = p_name param ∧
  cp_type cp = None.
Proof.
  unfold parse_parameter. intros H.
  apply bind_Ok_inv in H as (o0 & Hinit & H).
  apply bind_Ok_inv in H as (o1 & Htyped & H).
  apply bind_Ok_inv in H as (conv & _ & H).
  apply bind_Ok_inv in H as ([] & _ & [= <- <-]).
  split; [|done]. cbn [cp_name].
  rewrite channel_option_name, nullable_rule_name, declared_default_name.
  rewrite (typed_option_name _ _ _ Htyped). apply described_option_name.
Qed.

Lemma loop_invariant_step describes (all : list SigParameter)
    (options : list SlashCommandOption)
    (table : dict TansySlashCommandParameter) param option cp :
  param ∈ all →
  p_kind param = POSITIONAL_OR_KEYWORD ∨ p_kind param = KEYWORD_ONLY →
  parse_parameter' describes param = Ok (option, cp) →
  loop_invariant all options table →
  loop_invariant all (options ++ [option]) (dict_set table (cp_name cp) cp).
Proof.
  intros Hall Hkind Hparse [Hopts Htable].
  apply parse_parameter_entry in Hparse as (Hname & Harg & Htype). split.
  - intros o Hin. apply elem_of_app in Hin as [Hin|Hin].
    + destruct (Hopts o Hin) as (name & Hn & Hsome). exists name.
      split; [done|].
      destruct (decide (cp_name cp = name)) as [->|Hne].
      * rewrite dict_get_set_eq. by eexists.
      * by rewrite dict_get_set_ne.
    + apply list_elem_of_singleton in Hin as ->. exists (cp_name cp).
      split; [done|]. rewrite dict_get_set_eq. by eexists.
  - intros key entry Hin. apply dict_set_elem in Hin as [[= -> ->]|Hin].
    + split; [done|]. split; [done|]. split.
      * exists option. split; [|done]. apply elem_of_app. right.
        apply list_elem_of_here.
      * exists param. by rewrite Harg.
    + destruct (Htable key entry Hin) as (H1 & H2 & (o & Ho & Hon) & H4).
      split; [done|]. split; [done|]. split; [|done].
      exists o. split; [|done]. apply elem_of_app. by left.
Qed.

Lemma parse_loop_invariant describes (all params : list SigParameter)
    (options : list SlashCommandOption)
    (table : dict TansySlashCommandParameter) :
  (∀ p, p ∈ params → p ∈ all) →
  loop_invariant all options table →
  loop_invariant all
    (parse_loop' describes params options table).2.1
    (parse_loop' describes params options table).2.2.
Proof.
  revert options table.
  induction params as [|param params IH]; intros options table Hall Hinv;
    [done|].
  assert (∀ p, p ∈ params → p ∈ all) as Hrest.
  { intros p Hp. apply Hall. by apply list_elem_of_further. }
  assert (param ∈ all) as Hparam by apply Hall, list_elem_of_here.
  cbn [parse_loop]. destruct (p_kind param) eqn:Hkind.
  - done.
  - destruct (parse_parameter' describes param) as [e|[option cp]] eqn:Hparse;
      [done|].
    apply IH; [done|]. by eapply loop_invariant_step; eauto.
  - done.
  - destruct (parse_parameter' describes param) as [e|[option cp]] eqn:Hparse;
      [done|].
    apply IH; [done|]. by eapply loop_invariant_step; eauto.
  - by apply IH.
Qed.

Lemma parse_loop_table describes (params : list SigParameter) :
  loop_invariant params
    (parse_loop' describes params [] []).2.1
    (parse_loop' describes params [] []).2.2.
Proof.
  apply parse_loop_invariant; [done|]. split.
  - intros o Hin. by apply elem_of_nil in Hin.
  - intros key cp Hin. by apply elem_of_nil in Hin.
Qed.

(** X9.  However a first introspection ends, with success or with an error,
    the command it leaves is coherent: every option has a name under which
    the parameter table has an entry, and every table entry is filed under
    its own name, records no type, belongs to an option of that name, and
    carries as argument name the name of a parameter of the cached signature
    that can be passed by keyword. *)
Theorem parse_parameters_table self store func :
  callback self = Some func →
  parameters self = [] →
  let cmd := (parse_parameters' self store).2.1 in
  (∀ o : SlashCommandOption, o ∈ options cmd →
     ∃ name, opt_name o = Some name ∧ is_Some (dict_get (parameters cmd) name)) ∧
  (∀ key (cp : TansySlashCommandParameter), (key, cp) ∈ parameters cmd →
     key = cp_name cp ∧
     cp_type cp = None ∧
     (∃ o : SlashCommandOption, o ∈ options cmd ∧ opt_name o = Some key) ∧
     (∃ sig (p : SigParameter),
        _inspect_signature cmd = Some sig ∧
        p ∈ dict_values (sig_parameters sig) ∧
        cp_argument_name cp = p_name p ∧
        (p_kind p = POSITIONAL_OR_KEYWORD ∨ p_kind p = KEYWORD_ONLY))).
Proof.
  intros Hcb Hempty cmd.
  assert ((options cmd = [] ∧ parameters cmd = []) ∨
          ∃ sig, _inspect_signature cmd = Some sig ∧
                 loop_invariant (dict_values (sig_parameters sig))
                   (options cmd) (parameters cmd)) as [[Ho Hp]|(sig & Hsig & Ho & Hp)].
  { subst cmd. unfold _parse_parameters. rewrite Hcb, Hempty.
    cbn [dict_truthy].
    destruct (match _inspect_signature (set_options self []) with
              | Some s => Ok s
              | None => _
              end) as [e|sig]; [left; by rewrite <- Hempty|].
    right. exists sig.
    change (options (set_inspect_signature (set_options self []) (Some sig)))
      with ([] : list SlashCommandOption).
    change (parameters (set_inspect_signature (set_options self []) (Some sig)))
      with (parameters self).
    rewrite Hempty.
    pose proof (parse_loop_table (describes_of store func)
                  (dict_values (sig_parameters sig))) as Hinv.
    destruct (parse_loop' _ _ [] []) as [r [opts params]].
    cbn [fst snd] in Hinv.
    destruct r as [e|[]]; [done|].
    destruct (validate_command _) as [e|[]]; [done|].
    rewrite IntrospectionSpec.overwrite_with_parameters_frame. done. }
  - rewrite Ho, Hp. split.
    + intros o Hin. by apply elem_of_nil in Hin.
    + intros key cp Hin. by apply elem_of_nil in Hin.
  - split; [done|]. intros key cp Hin.
    destruct (Hp key cp Hin) as (H1 & H2 & H3 & p & Hin' & H4 & H5).
    split; [done|]. split; [done|]. split; [done|]. by exists sig, p.
Qed.

(** X10.  For a parameter without a marker, and whose plain default is not
    the no-default sentinel itself, the option built is required exactly
    when the table entry has no default. *)
Theorem plain_parameter_required describes param option cp :
  parse_parameter' describes param = Ok (option, cp) →
  marker_of param = None →
  p_default param ≠ DValue PyMissing →
  opt_required option = negb (optional cp).
Proof.
  intros H Hm Hd.
  apply IntrospectionSpec.parse_parameter_default in H
    as (o0 & Hbase & Hdef & Hreq & _).
  specialize (Hbase Hm). unfold optional. rewrite Hreq, Hdef.
  unfold nullable_rule, declared_default, no_user_type. rewrite Hm.
  unfold marker_of in Hm.
  destruct (p_default param) as [|info|v]; [|done|]; cbn [fst snd].
  - rewrite bool_decide_true by done. cbn [andb].
    destruct (is_optional _); cbn [fst snd opt_required with_required].
    + by rewrite bool_decide_true.
    + rewrite Hbase. by rewrite bool_decide_false by (intros ?; done).
  - assert (v ≠ PyMissing) as Hv by congruence.
    rewrite (bool_decide_false (v = PyMissing)) by done. cbn.
    by rewrite bool_decide_true.
Qed.

(** X11.  A marker's converter that [_get_converter] does not recognise (a
    class, say) is an error: once the option's type is settled, the
    parameter is refused with [ValueError] and the message "The converter
    for <name> is invalid. Please make sure it is either a Converter-like
    class or a function.", before the option is validated. *)
Theorem invalid_marker_converter describes param info c :
  marker_of param = Some info →
  pi_converter info = Some c →
  get_converter c (p_name param) = Ok None →
  (opt_type (generate_option info) = None →
   ∃ t, get_option (p_annotation param) = Ok t) →
  parse_parameter' describes param =
    Raise (ValueError
             ("The converter for " ++ p_name param
              ++ " is invalid. Please make sure it is either a Converter-like class or a function.")).
Proof.
  intros Hm Hc Hnone Htype. unfold parse_parameter, initial_option.
  rewrite Hm, bind_Ok.
  assert (∃ o, typed_option get_option param
                 (described_option describes param (generate_option info)) = Ok o)
    as [o ->].
  { unfold typed_option.
    destruct (opt_type (described_option _ _ _)) eqn:Hty; [by eexists|].
    assert (opt_type (generate_option info) = None) as Hgen.
    { revert Hty. unfold described_option.
      destruct (dict_get _ _) as [desc|]; [|done]. by destruct (String.eqb desc ""). }
    destruct (Htype Hgen) as [t Ht]. unfold option_type_of. rewrite Ht.
    by eexists. }
  rewrite bind_Ok. unfold resolve_converter. by rewrite Hm, Hc, Hnone.
Qed.

(** X12.  When [utils.get_option] refuses the parameter's annotation with a
    [ValueError] and no marker supplies the option's type (there is no
    marker, or the option the marker generates has no type), the
    introspection raises [ValueError] with the message "Invalid/no provided
    type for <name>", whatever message [get_option] gave. *)
Theorem unresolved_type_message describes param msg :
  get_option (p_annotation param) = Raise (ValueError msg) →
  (∀ info, marker_of param = Some info →
           opt_type (generate_option info) = None) →
  parse_parameter' describes param =
    Raise (ValueError ("Invalid/no provided type for " ++ p_name param)).
Proof.
  intros Herr Hm. unfold parse_parameter, initial_option, option_type_of.
  destruct (marker_of param) as [info|]; [|by rewrite Herr].
  rewrite bind_Ok. unfold typed_option, option_type_of.
  assert (opt_type (described_option describes param (generate_option info))
          = None) as ->.
  { unfold described_option. destruct (dict_get _ _) as [desc|]; [|by apply Hm].
    destruct (String.eqb desc ""); by apply Hm. }
  by rewrite Herr.
Qed.





End Introspection.

Lemma parse_parameters_table_witness :
  let cmd :=
    (_parse_parameters Examples.first_metadata Examples.host_converter_function
       Examples.get_option Examples.is_optional Examples.resolve_channel_types
       Examples.generate_option Examples.validate_option
       Examples.validate_command Examples.roll_signature
       Examples.roll_command (Examples.store_with Examples.roll)).2.1 in
  (∀ o : SlashCommandOption, o ∈ options cmd →
     ∃ name, opt_name o = Some name ∧ is_Some (dict_get (parameters cmd) name)) ∧
  (∀ key (cp : TansySlashCommandParameter), (key, cp) ∈ parameters cmd →
     key = cp_name cp ∧
     cp_type cp = None ∧
     (∃ o : SlashCommandOption, o ∈ options cmd ∧ opt_name o = Some key) ∧
     (∃ sig (p : SigParameter),
        _inspect_signature cmd = Some sig ∧
        p ∈ dict_values (sig_parameters sig) ∧
        cp_argument_name cp = p_name p ∧
        (p_kind p = POSITIONAL_OR_KEYWORD ∨ p_kind p = KEYWORD_ONLY))).
Proof.
  apply (parse_parameters_table Examples.first_metadata
           Examples.host_converter_function Examples.get_option
           Examples.is_optional Examples.resolve_channel_types
           Examples.generate_option Examples.validate_option
           Examples.validate_command Examples.roll_signature
           Examples.roll_command (Examples.store_with Examples.roll) (Func 0)).
  - reflexivity.
  - reflexivity.
Defined.

Lemma plain_parameter_required_witness :
  ∃ option cp,
    parse_parameter Examples.first_metadata Examples.host_converter_function
      Examples.get_option Examples.is_optional Examples.resolve_channel_types
      Examples.generate_option Examples.validate_option [] Examples.qty_param
    = Ok (option, cp) ∧
    optional cp = true ∧
    opt_required option = negb (optional cp).
Proof.
  eexists _, _. split; [vm_compute; reflexivity|]. split; [reflexivity|].
  apply (plain_parameter_required Examples.first_metadata
           Examples.host_converter_function Examples.get_option
           Examples.is_optional Examples.resolve_channel_types
           Examples.generate_option Examples.validate_option []
           Examples.qty_param).
  - reflexivity.
  - reflexivity.
  - discriminate.
Defined.

Lemma invalid_marker_converter_witness :
  parse_parameter Examples.first_metadata Examples.host_converter_function
    Examples.get_option Examples.is_optional Examples.resolve_channel_types
    Examples.generate_option Examples.validate_option []
    Examples.converted_param
  = Raise (ValueError
             "The converter for amount is invalid. Please make sure it is either a Converter-like class or a function.").
Proof.
  apply (invalid_marker_converter Examples.first_metadata
           Examples.host_converter_function Examples.get_option
           Examples.is_optional Examples.resolve_channel_types
           Examples.generate_option Examples.validate_option []
           Examples.converted_param Examples.int_class_marker
           Examples.int_anno).
  - reflexivity.
  - reflexivity.
  - reflexivity.
  - discriminate.
Defined.

Lemma unresolved_type_message_witness :
  parse_parameter Examples.first_metadata Examples.host_converter_function
    Examples.get_option Examples.is_optional Examples.resolve_channel_types
    Examples.generate_option Examples.validate_option []
    Examples.list_param
  = Raise (ValueError "Invalid/no provided type for items").
Proof.
  apply (unresolved_type_message Examples.first_metadata
           Examples.host_converter_function Examples.get_option
           Examples.is_optional Examples.resolve_channel_types
           Examples.generate_option Examples.validate_option []
           Examples.list_param "unknown annotation").
  - reflexivity.
  - intros info Hmarker. discriminate Hmarker.
Defined.


End IntrospectionExtra.

(** ** Converter normalisation without a code object *)

Module ConverterExtra.
Section Dispatch.
Variable get_from_anno_type : list AnnoObj → AnnoObj.
Variable _get_converter_function : ConverterObj → string → Result ConverterFn.

(** X14.  For a routine without a code object the count is taken over the
    whole signature, whatever the kinds of its parameters: with more than
    two parameters of any kind the routine is refused as having more than 2
    positional arguments. *)
Theorem get_converter_counts_every_kind anno r name kinds :
  unwrap_annotated get_from_anno_type anno = ARoutine r →
  routine_co_argcount r = None →
  routine_signature r = Ok kinds →
  2 < length kinds →
  _get_converter get_from_anno_type _get_converter_function anno name =
    Raise (ValueError (routine_name r ++ " for " ++ name
             ++ " has more than 2 positional arguments, which is unsupported.")).
Proof.
  intros Hanno Hcode Hsig Hlen. unfold _get_converter, num_params.
  rewrite Hanno, Hcode, Hsig. rewrite !bind_Ok.
  destruct (length kinds) as [|[|[|n]]]; [lia..|done].
Qed.
End Dispatch.

Lemma get_converter_counts_every_kind_witness :
  length (filter (λ k, k = POSITIONAL_ONLY ∨ k = POSITIONAL_OR_KEYWORD)
            [POSITIONAL_ONLY; KEYWORD_ONLY; KEYWORD_ONLY]) = 1%nat ∧
  _get_converter Examples.first_metadata Examples.host_converter_function
    (Plain (ARoutine Examples.sorted_builtin)) "key" =
    Raise (ValueError
      "sorted for key has more than 2 positional arguments, which is unsupported.").
Proof.
  split; [reflexivity|].
  apply (get_converter_counts_every_kind Examples.first_metadata
           Examples.host_converter_function
           (Plain (ARoutine Examples.sorted_builtin)) Examples.sorted_builtin
           "key" [POSITIONAL_ONLY; KEYWORD_ONLY; KEYWORD_ONLY]);
    [reflexivity | reflexivity | reflexivity | cbn; lia].
Defined.
End ConverterExtra.

(** ** Decorators and derived commands *)

Module FactoriesExtra.
Section Factories.
Variable GLOBAL_SCOPE : Value.
Variable partial_doc : option string.
Variable class_defaults : TansySlashCommand.
Variable host_validators : TansySlashCommand → Result unit.
Variable callback_checks : Callable → list Value.

Local Abbreviation tansy_slash_command' :=
  (tansy_slash_command GLOBAL_SCOPE partial_doc host_validators
     callback_checks).
Local Abbreviation tansy_subcommand' :=
  (tansy_subcommand GLOBAL_SCOPE partial_doc host_validators callback_checks).
Local Abbreviation group' :=
  (group class_defaults host_validators callback_checks).
Local Abbreviation wrapper' :=
  (wrapper partial_doc host_validators callback_checks).

(** [call.__doc__ or "No Description Set"], written out. *)
Local Abbreviation documented store call :=
  (match match call with
         | Func addr => __doc__ (store addr)
         | Partial _ _ _ => partial_doc
         end with
   | Some doc => if String.eqb doc "" then "No Description Set" else doc
   | None => "No Description Set"
   end).

(** A command the constructor returns holds the arguments as they were
    stored, but for its list of checks. *)
Lemma constructed_fields name description group_name group_description
    sub_cmd_name sub_cmd_description perm dm callback scopes nsfw checks cmd :
  (TansySlashCommand_init host_validators callback_checks name description
     group_name group_description sub_cmd_name sub_cmd_description perm dm
     callback scopes nsfw checks).1 = Ok cmd →
  cmd =
    set_checks
      (stored_fields name description group_name group_description
         sub_cmd_name sub_cmd_description perm dm callback scopes nsfw checks)
      match callback with
      | Some call => checks ++ callback_checks call
      | None => checks
      end.
Proof.
  unfold TansySlashCommand_init. destruct (host_validators _); [done|].
  by intros [= <-].
Qed.

Lemma scopes_or_nonempty scopes : scopes_or GLOBAL_SCOPE scopes ≠ [].
Proof. by destruct scopes as [[|]|]. Qed.

(** What a closure of [subcommand] hands to the constructor, and what it
    leaves in its environment. *)
Lemma wrapper_constructed env store call cmd env' :
  wrapper' env store call = (Ok cmd, env') →
  let description :=
    match env_sub_cmd_description env with
    | MISSING => documented store call
    | Given d => d
    end in
  let self := env_self env in
  let passed := if env_inherit_checks env then checks self else [] in
  is_coroutine (store (func_to_parse call)) = true ∧
  cmd =
    set_checks
      (stored_fields (cmd_name self) (cmd_description self)
         (str_or (env_group_name env) (group_name self))
         (str_or (env_group_description env) (group_description self))
         (Some (env_sub_cmd_name env)) description
         (default_member_permissions self) (dm_permission self) (Some call)
         (scopes self) (env_nsfw env) passed)
      (passed ++ callback_checks call) ∧
  env_sub_cmd_description env' = Given description ∧
  env_self env' =
    (if env_inherit_checks env then set_checks self (checks cmd) else self).
Proof.
  unfold wrapper, iscoroutinefunction.
  destruct (is_coroutine (store (func_to_parse call))); [|done].
  cbn [negb]. cbv zeta. rewrite SubcommandSpec.doc_or_default_documented.
  cbn [set_sub_cmd_description env_self env_group_name env_group_description
       env_sub_cmd_name env_nsfw env_inherit_checks env_sub_cmd_description].
  unfold TansySlashCommand_init. destruct (host_validators _); [done|].
  cbn [fst snd]. intros [= <- <-]. split; [done|]. split; [done|].
  by destruct (env_inherit_checks env).
Qed.

Lemma wrapper_scopes env store call cmd env' :
  wrapper' env store call = (Ok cmd, env') →
  scopes cmd = scopes (env_self env) ∧ cmd_name cmd = cmd_name (env_self env).
Proof.
  intros Hrun. apply wrapper_constructed in Hrun as (_ & -> & _). done.
Qed.

(** X15.  Every command built by one of the two decorators, or derived from
    such a command through [group] and [subcommand] in any number of steps,
    has at least one scope. *)
Theorem derived_scopes_nonempty cmd :
  Derived GLOBAL_SCOPE partial_doc class_defaults host_validators
    callback_checks cmd →
  scopes cmd ≠ [].
Proof.
  induction 1 as [? ? ? ? ? ? ? ? ? ? ? ? ? ? Hrun
                 |? ? ? ? ? ? ? ? ? ? ? ? ? ? ? Hrun
                 |? ? ? ? ? ? ? IH Hrun
                 |? ? ? IH
                 |? ? ? ? ? ? IH Hrun].
  - unfold tansy_slash_command in Hrun. destruct (negb _); [done|].
    apply constructed_fields in Hrun as ->. apply scopes_or_nonempty.
  - unfold tansy_subcommand in Hrun. destruct (negb _); [done|].
    apply constructed_fields in Hrun as ->. apply scopes_or_nonempty.
  - unfold group in Hrun. injection Hrun as Hrun _.
    apply constructed_fields in Hrun as ->. exact IH.
  - exact IH.
  - apply wrapper_scopes in Hrun as [-> _]. exact IH.
Qed.

(** X16.  When the callback carries permission flags, the command built by
    [tansy_slash_command] requires the union of the decorator's flags and
    the callback's, an absent or empty decorator argument counting as no
    flag; when it carries none, the decorator's argument is used as it
    is. *)
Theorem slash_command_permissions name description scopes perm dm sub_name
  group_name sub_desc group_desc nsfw store attrs func cmd :
  tansy_slash_command' name description scopes perm dm sub_name group_name
    sub_desc group_desc nsfw store attrs func = Ok cmd →
  match permissions_of attrs func with
  | Some func_perm =>
      ∃ merged, default_member_permissions cmd = Some merged ∧
        ∀ i, Z.testbit merged i
             = Z.testbit (default 0%Z perm) i || Z.testbit func_perm i
  | None => default_member_permissions cmd = perm
  end.
Proof.
  unfold tansy_slash_command. destruct (negb _); [done|]. intros Hrun.
  apply constructed_fields in Hrun as ->.
  cbn [set_checks stored_fields default_member_permissions].
  unfold merged_permissions.
  destruct (permissions_of attrs func) as [func_perm|]; [|done].
  destruct perm as [p|]; cbn [default].
  - destruct (Z.eqb_spec p 0) as [->|Hne]; eexists; (split; [done|]); intros i.
    + by rewrite Z.bits_0.
    + apply Z.lor_spec.
  - eexists. split; [done|]. intros i. by rewrite Z.bits_0.
Qed.

Lemma str_truthy_nonempty o :
  str_truthy o = true → ∃ s, o = Some s ∧ s ≠ "".
Proof.
  destruct o as [s|]; [|done]. cbn. destruct (String.eqb_spec s ""); [done|].
  intros _. by exists s.
Qed.

Lemma description_or_nonempty a b : description_or a b ≠ "".
Proof.
  unfold description_or. unfold str_or at 1.
  destruct (str_truthy (str_or a b)) eqn:Ht; [|done].
  apply str_truthy_nonempty in Ht as (s & -> & Hs). done.
Qed.

(** X17.  A command built by [tansy_subcommand] never has an empty base
    description or group description.  The base description is
    [base_description] when that is non-empty, else the alias [base_desc]
    when that is non-empty, else "No Description Set". *)
Theorem subcommand_descriptions base sub_group name description
  base_description base_desc perm dm group_description sub_group_desc scopes
  nsfw store func cmd :
  tansy_subcommand' base sub_group name description base_description
    base_desc perm dm group_description sub_group_desc scopes nsfw store func
  = Ok cmd →
  cmd_description cmd ≠ "" ∧
  (∃ d, Commands.group_description cmd = Some d ∧ d ≠ "") ∧
  (str_truthy base_description = true →
   Some (cmd_description cmd) = base_description) ∧
  (str_truthy base_description = false → str_truthy base_desc = true →
   Some (cmd_description cmd) = base_desc) ∧
  (str_truthy base_description = false → str_truthy base_desc = false →
   cmd_description cmd = "No Description Set").
Proof.
  unfold tansy_subcommand. destruct (negb _); [done|]. intros Hrun.
  apply constructed_fields in Hrun as ->.
  cbn [set_checks stored_fields cmd_description Commands.group_description].
  pose proof description_or_nonempty as Hne.
  split; [apply Hne|]. split; [eexists; split; [done | apply Hne]|].
  unfold description_or, str_or. repeat split.
  - intros Ha. rewrite Ha. cbn. rewrite Ha. by destruct base_description.
  - intros Ha Hb. rewrite Ha, Hb. cbn. by destruct base_desc.
  - intros Ha Hb. rewrite Ha, Hb. done.
Qed.

(** X18.  When [group] and then a closure of [subcommand] on the group
    command both return a command, the subcommand has the base command's
    name, description and scopes and the group's name and description.  Its
    checks are the base's, when both derivations inherit them, followed by
    the checks the callback carries.  Its permission requirement and DM
    flag are the constructor's defaults, not the base command's: [group]
    does not pass them on. *)
Theorem group_then_subcommand self gname gdesc inherit1 sub_name sub_desc
  nsfw_flag inherit2 store call grouped self' cmd env' :
  callback class_defaults = None →
  group' self gname gdesc inherit1 = (Ok grouped, self') →
  wrapper'
    (subcommand grouped sub_name None sub_desc None nsfw_flag inherit2)
    store call = (Ok cmd, env') →
  cmd_name cmd = cmd_name self ∧
  cmd_description cmd = cmd_description self ∧
  scopes cmd = scopes self ∧
  Commands.group_name cmd = gname ∧
  Commands.group_description cmd = Some gdesc ∧
  Commands.sub_cmd_name cmd = Some sub_name ∧
  callback cmd = Some call ∧
  checks cmd
  = (if inherit1 && inherit2 then checks self else []) ++ callback_checks call ∧
  default_member_permissions cmd = default_member_permissions class_defaults ∧
  dm_permission cmd = dm_permission class_defaults.
Proof.
  intros Hnone Hgroup Hrun. unfold group in Hgroup.
  injection Hgroup as Hgroup _. apply constructed_fields in Hgroup.
  rewrite Hnone in Hgroup. subst grouped.
  apply wrapper_constructed in Hrun as (_ & -> & _). cbn.
  repeat split. by destruct inherit1, inherit2.
Qed.


End Factories.

Lemma derived_scopes_nonempty_witness :
  ∃ grouped,
    (group Examples.class_defaults Examples.host_validators
       Examples.callback_checks Examples.decorated_command (Some "users")
       "User administration" true).1 = Ok grouped ∧
    Derived (PyInt 0) None Examples.class_defaults Examples.host_validators
      Examples.callback_checks grouped ∧
    scopes grouped ≠ [].
Proof.
  eexists. split; [reflexivity|].
  match goal with |- Derived _ _ _ _ _ ?g ∧ _ =>
    assert (Derived (PyInt 0) None Examples.class_defaults
              Examples.host_validators Examples.callback_checks g)
      as Hderived
  end.
  { eapply (derived_group (PyInt 0) None Examples.class_defaults
              Examples.host_validators Examples.callback_checks
              Examples.decorated_command (Some "users")
              "User administration" true); [|reflexivity].
    apply (derived_slash_command (PyInt 0) None Examples.class_defaults
             Examples.host_validators Examples.callback_checks
             "admin" (Given "Administration") (Some [PyInt 42]) (Some 8%Z)
             false None None "No Description Set" "No Description Set" false
             (Examples.store_with Examples.f_positional) (fun _ => None)
             (Func 0)).
    reflexivity. }
  split; [exact Hderived|].
  exact (derived_scopes_nonempty (PyInt 0) None Examples.class_defaults
           Examples.host_validators Examples.callback_checks _ Hderived).
Defined.

Lemma slash_command_permissions_witness :
  ∃ cmd merged,
    tansy_slash_command (PyInt 0) None Examples.host_validators
      Examples.callback_checks "ban" MISSING None (Some 4%Z) true None
      None "No Description Set" "No Description Set" false
      (Examples.store_with Examples.f_positional) Examples.permission_attrs
      (Func 0) = Ok cmd ∧
    default_member_permissions cmd = Some merged ∧
    ∀ i, Z.testbit merged i = Z.testbit 4 i || Z.testbit 8 i.
Proof.
  eexists.
  destruct (slash_command_permissions (PyInt 0) None Examples.host_validators
              Examples.callback_checks "ban" MISSING None
              (Some 4%Z) true None None "No Description Set"
              "No Description Set" false
              (Examples.store_with Examples.f_positional)
              Examples.permission_attrs (Func 0) _ eq_refl)
    as (merged & Hperm & Hbits).
  exists merged. split; [reflexivity|]. split; [exact Hperm | exact Hbits].
Defined.

Lemma subcommand_descriptions_witness :
  ∃ cmd,
    tansy_subcommand (PyInt 0) None Examples.host_validators
      Examples.callback_checks "admin" (Some "users") (Some "ban")
      MISSING (Some "") (Some "Administration") None true None None None
      false (Examples.store_with Examples.f_positional) (Func 0) = Ok cmd ∧
    Some (cmd_description cmd) = Some "Administration" ∧
    Commands.group_description cmd = Some "No Description Set".
Proof.
  eexists.
  destruct (subcommand_descriptions (PyInt 0) None Examples.host_validators
              Examples.callback_checks "admin" (Some "users")
              (Some "ban") MISSING (Some "") (Some "Administration") None true
              None None None false
              (Examples.store_with Examples.f_positional) (Func 0) _ eq_refl)
    as (_ & _ & _ & Halias & _).
  split; [reflexivity|]. split; [exact (Halias eq_refl eq_refl) | reflexivity].
Defined.

Lemma group_then_subcommand_witness :
  ∃ grouped cmd env',
    group Examples.class_defaults Examples.host_validators
      Examples.callback_checks Examples.guarded_command (Some "users")
      "User administration" true
    = (Ok grouped, Examples.guarded_command) ∧
    wrapper None Examples.host_validators Examples.callback_checks
      (subcommand grouped "ban" None MISSING None false true)
      Examples.two_function_store (Func 1) = (Ok cmd, env') ∧
    cmd_name cmd = "admin" ∧
    checks cmd = [PyObj 5; PyObj 6] ∧
    default_member_permissions Examples.guarded_command = Some 8%Z ∧
    default_member_permissions cmd = None.
Proof.
  eexists _, _, _. split; [reflexivity|]. split; [reflexivity|].
  destruct (group_then_subcommand None Examples.class_defaults
              Examples.host_validators Examples.callback_checks
              Examples.guarded_command (Some "users") "User administration"
              true "ban" MISSING false true Examples.two_function_store
              (Func 1) _ _ _ _ eq_refl eq_refl eq_refl)
    as (Hname & _ & _ & _ & _ & _ & _ & Hchecks & Hperm & _).
  split; [exact Hname|]. split; [exact Hchecks|].
  split; [reflexivity | exact Hperm].
Defined.


End FactoriesExtra.

(** ** The transport patch, with and without the codec *)

Module TransportExtra.

(** X20.  [patch()] never changes the module state, the host's HTTP-client
    type included: without the codec it raises, and with the codec the
    constructor it assigns is the one the subclass inherits from the host's
    type, which is the one already there.  It succeeds exactly when the
    codec was importable. *)
Theorem patch_changes_nothing st :
  (patch st).2 = st ∧
  ((patch st).1 = Ok tt ↔ OrJsonHTTP st ≠ None).
Proof.
  unfold patch. destruct st as [[cls|] [init login_method]]; cbn.
  - split; [by destruct cls|]. done.
  - split; [done|]. split; [done|]. intros H. by destruct H.
Qed.

End TransportExtra.
